(** * mario: the MARC record mapper (marc.go), embedded and verified

    The development follows the Go sources of the repository:
    - [Go]      the parts of the Go runtime and standard library the mapper
                relies on (panics, string slicing, [strings], [strconv]);
    - [Fml]     the interface of the external MARC decoder (package fml);
    - [Marc]    package main, file marc.go: rules, extraction, the derived
                fields and the producer loop;
    - [Parsers] package marc, file parsers/marc.go: the older content type
                table;
    - [Spec]    the vocabulary of the statements and the example records.
    Theorems about the embedded functions come after the definitions. *)

From Stdlib Require Import ZArith Ascii String List Lia.
From stdpp Require Import base option list strings gmap.

Local Open Scope string_scope.
Local Open Scope list_scope.

(* ===================================================================== *)
(** * The Go runtime and the standard library functions in use           *)
(* ===================================================================== *)

Module Go.

(** Run-time panics the mapper can raise.  Nothing in the repository calls
    [recover], so a panic ends the goroutine and with it the process. *)
Inductive panic : Set :=
| NilDereference     (* invalid memory address or nil pointer dereference *)
| SliceBounds        (* slice bounds out of range *)
| IndexOutOfRange.   (* index out of range *)

(** The outcome of running a Go function: it returns, or it panics. *)
Inductive result (A : Type) : Type :=
| Returns (a : A)
| Panics (p : panic).
Arguments Returns {A} a.
Arguments Panics {A} p.

#[global] Instance result_ret : MRet result := fun A a => Returns a.
#[global] Instance result_bind : MBind result := fun A B k r =>
  match r with
  | Returns a => k a
  | Panics p => Panics p
  end.

Definition returned {A} (r : result A) : bool :=
  match r with Returns _ => true | Panics _ => false end.

(** [l[i]] on a slice: panics when [i] is out of range. *)
Definition index {A} (l : list A) (i : nat) : result A :=
  match nth_error l i with
  | Some a => Returns a
  | None => Panics IndexOutOfRange
  end.

(** ** int: 64-bit two's complement (the Dockerfile builds for amd64) *)

Definition maxInt : Z := 2 ^ 63 - 1.
Definition minInt : Z := - 2 ^ 63.

(** Wrap-around of a mathematical integer into [int]. *)
Definition wrap (z : Z) : Z := (z + 2 ^ 63) mod 2 ^ 64 - 2 ^ 63.

(** [a + b] on [int]. *)
Definition add (a b : Z) : Z := wrap (a + b).

(** ** Strings are byte sequences *)

(** [len(s)] *)
Definition len (s : string) : Z := Z.of_nat (String.length s).

(** [s[low:high]] on a string: panics unless [0 <= low <= high <= len(s)]. *)
Definition slice (s : string) (low high : Z) : result string :=
  if (0 <=? low)%Z && (low <=? high)%Z && (high <=? len s)%Z
  then Returns (substring (Z.to_nat low) (Z.to_nat (high - low)) s)
  else Panics SliceBounds.

(** [strings.Join(elems, sep)] *)
Fixpoint Join (elems : list string) (sep : string) : string :=
  match elems with
  | [] => ""
  | [e] => e
  | e :: rest => e +:+ sep +:+ Join rest sep
  end.

(** [strings.Split(s, sep)] for a one-byte separator: the pieces between
    the occurrences of [sep]; always at least one piece. *)
Fixpoint Split (s : string) (sep : ascii) : list string :=
  match s with
  | "" => [""]
  | String c s' =>
      if Ascii.eqb c sep then "" :: Split s' sep
      else match Split s' sep with
           | piece :: pieces => String c piece :: pieces
           | [] => [String c ""]
           end
  end.

(** [strings.Trim(s, cutset)] for a cutset of ASCII bytes. *)
Definition inCutset (cutset : string) (c : ascii) : bool :=
  existsb (Ascii.eqb c) (list_ascii_of_string cutset).

Fixpoint TrimLeft (s cutset : string) : string :=
  match s with
  | "" => ""
  | String c s' => if inCutset cutset c then TrimLeft s' cutset else s
  end.

Fixpoint TrimRight (s cutset : string) : string :=
  match s with
  | "" => ""
  | String c s' =>
      match TrimRight s' cutset with
      | "" => if inCutset cutset c then "" else String c ""
      | t => String c t
      end
  end.

Definition Trim (s cutset : string) : string :=
  TrimRight (TrimLeft s cutset) cutset.

(** [string(b)] for a byte [b]: the UTF-8 encoding of the code point [b]. *)
Definition string_of_byte (b : ascii) : string :=
  let n := N_of_ascii b in
  if (n <? 128)%N then String b ""
  else String (ascii_of_N (N.lor 192 (N.shiftr n 6)))
         (String (ascii_of_N (N.lor 128 (N.land n 63))) "").

(** ** strconv.Atoi (Go 1.13, base 10, 64-bit int) *)

Inductive numError : Set := ErrSyntax | ErrRange.

Definition digit (c : ascii) : option Z :=
  let n := Z.of_N (N_of_ascii c) in
  if (48 <=? n)%Z && (n <=? 57)%Z then Some (n - 48)%Z else None.

(** [ParseUint(s, 10, 64)] on a non-empty digit string, scanning from the
    left with the accumulator [n]: a byte that is no digit is a syntax
    error, an accumulator leaving [uint64] a range error. *)
Fixpoint parseUint (s : string) (n : Z) : Z + numError :=
  match s with
  | "" => inl n
  | String c s' =>
      match digit c with
      | None => inr ErrSyntax
      | Some d =>
          let n1 := (n * 10 + d)%Z in
          if (2 ^ 64 <=? n1)%Z then inr ErrRange else parseUint s' n1
      end
  end.

Definition ParseUint (s : string) : Z * option numError :=
  match s with
  | "" => (0%Z, Some ErrSyntax)
  | _ => match parseUint s 0 with
         | inl n => (n, None)
         | inr ErrSyntax => (0%Z, Some ErrSyntax)
         | inr ErrRange => ((2 ^ 64 - 1)%Z, Some ErrRange)
         end
  end.

(** [ParseInt(s, 10, 0)] *)
Definition ParseInt (s : string) : Z * option numError :=
  match s with
  | "" => (0%Z, Some ErrSyntax)
  | String c s' =>
      let neg := Ascii.eqb c "-" in
      let body := if Ascii.eqb c "+" || neg then s' else s in
      match ParseUint body with
      | (_, Some ErrSyntax) => (0%Z, Some ErrSyntax)
      | (un, _) =>
          let cutoff := (2 ^ 63)%Z in
          if negb neg && (cutoff <=? un)%Z then ((cutoff - 1)%Z, Some ErrRange)
          else if neg && (cutoff <? un)%Z then ((- cutoff)%Z, Some ErrRange)
          else ((if neg then - un else un)%Z, None)
      end
  end.

(** [strconv.Atoi(s)]: the value and the error.  The fast path that Atoi
    takes on strings shorter than 19 bytes computes the same pair. *)
Definition Atoi (s : string) : Z * option numError := ParseInt s.

(** ** Control structures *)

(** A [switch] on a string whose cases list constant labels: the cases are
    tried from the top, the first one listing the value is taken. *)
Fixpoint switch {A} (x : string) (cases : list (list string * A)) (default : A) : A :=
  match cases with
  | [] => default
  | (labels, body) :: rest =>
      if existsb (String.eqb x) labels then body else switch x rest default
  end.

(** [for _, x := range l { s = body x s }], where the body may panic. *)
Fixpoint forRange {A S} (l : list A) (body : A -> S -> result S) (s : S) : result S :=
  match l with
  | [] => Returns s
  | x :: rest =>
      match body x s with
      | Returns s' => forRange rest body s'
      | Panics p => Panics p
      end
  end.

End Go.

Import Go.

(* ===================================================================== *)
(** * The decoder: package fml                                            *)
(* ===================================================================== *)

(** The decoder is an external library.  The mapper only uses the accessors
    below, so a decoded record is modelled as what these accessors answer.
    Everything proved for every [fmlRecord] therefore holds whatever the
    decoder's own behaviour is. *)
Module Fml.

Module SubField.
Record t : Type := { Code : string; Value : string }.
End SubField.

Module DataField.
Record t : Type := {
  Tag : string;
  Indicator1 : ascii;
  Indicator2 : ascii;
  SubFields : list SubField.t
}.
End DataField.

Record fmlRecord : Type := {
  ControlNum : string;                          (* r.ControlNum() *)
  Leader_Type : ascii;                          (* r.Leader.Type *)
  Filter : string -> list (list string);        (* r.Filter(query) *)
  DataField : string -> list DataField.t        (* r.DataField(tag) *)
}.

(** A value of the iterator: [mr.Value()] gives a record and an error. *)
Record value : Type := { record : fmlRecord; err : option string }.

(** Modelled from the spec: the decoder's accessors on a record given by
    its control number, leader type byte and data fields (section 4.1:
    every occurrence of the named tag, and for each the values of the
    requested subfield codes in record order; section 6: field accessors
    by tag).  Used to write example records down. *)
Definition occurrences (fields : list DataField.t) (tag : string) : list DataField.t :=
  List.filter (fun f => String.eqb (DataField.Tag f) tag) fields.

Definition requested (codes : string) (sf : SubField.t) : bool :=
  existsb (fun c => String.eqb (SubField.Code sf) (String c "")) (list_ascii_of_string codes).

Definition filterFields (fields : list DataField.t) (query : string) : list (list string) :=
  let tag := substring 0 3 query in
  let codes := substring 3 (String.length query - 3) query in
  List.filter (fun vs => negb (Nat.eqb (length vs) 0))
    (map (fun f => map SubField.Value (List.filter (requested codes) (DataField.SubFields f)))
         (occurrences fields tag)).

Definition recordOf (controlNum : string) (leaderType : ascii)
    (fields : list DataField.t) : fmlRecord :=
  {| ControlNum := controlNum;
     Leader_Type := leaderType;
     Filter := filterFields fields;
     DataField := occurrences fields |}.

End Fml.

(* ===================================================================== *)
(** * package main: record.go and marc.go                                 *)
(* ===================================================================== *)

Module Marc.

(** ** The structures of record.go

    marc.go is written against a later record.go than the one among the
    sources: [Holding] and the fields [Source] and [SourceLink] of the
    record are taken from the way marc.go assigns them.  The slices of
    pointers ([]*Rule, []*Field, []*Contributor) hold no nil element and
    are modelled as lists of values. *)

Module Field.
Record t : Type := { Tag : string; Subfields : string; Bytes : string; Kind : string }.
End Field.

Module Rule.
Record t : Type := { Label : string; Array : bool; Fields : list Field.t }.
End Rule.

Module Contributor.
Record t : Type := { Kind : string; Value : list string }.
End Contributor.

Module RelatedItem.
Record t : Type := { Kind : string; Value : list string }.
End RelatedItem.

Module Link.
Record t : Type := { Kind : string; Text : string; URL : string; Restrictions : string }.
End Link.

Module Holding.
Record t : Type := {
  Location : string;
  Collection : string;
  CallNumber : string;
  Summary : string;
  Notes : string;
  Format : string
}.
End Holding.

(** The normalized document, Go's [Record]. *)
Module Rec.
Record t : Type := {
  Identifier : string;
  Source : string;
  SourceLink : string;
  Title : string;
  AlternateTitles : list string;
  Creator : list string;
  Contributor : list Contributor.t;
  Subject : list string;
  Isbn : list string;
  Issn : list string;
  Doi : list string;
  OclcNumber : list string;
  Lccn : string;
  Country : string;
  Language : list string;
  PublicationDate : string;
  ContentType : string;
  CallNumber : list string;
  Edition : string;
  Imprint : list string;
  PhysicalDescription : string;
  PublicationFrequency : list string;
  Numbering : string;
  Notes : list string;
  Contents : list string;
  Summary : list string;
  Format : list string;
  LiteraryForm : string;
  RelatedPlace : list string;
  InBibliography : list string;
  RelatedItems : list RelatedItem.t;
  Links : list Link.t;
  Holdings : list Holding.t
}.
End Rec.

(** ** Rules and extraction *)

(** [getRules]: the first rule with the label, or the nil pointer. *)
Fixpoint getRules (rules : list Rule.t) (label : string) : option Rule.t :=
  match rules with
  | [] => None
  | v :: rest => if String.eqb (Rule.Label v) label then Some v else getRules rest label
  end.

Fixpoint stringInSlice (a : string) (list : list string) : bool :=
  match list with
  | [] => false
  | b :: rest => if String.eqb b a then true else stringInSlice a rest
  end.

(** The byte range [field.Bytes] applied to one joined value [v]. *)
Definition byteRange (Bytes : string) (v : string) : result string :=
  if negb (String.eqb Bytes "") then
    let f := Split Bytes ":" in
    f0 ← index f 0;
    let first := fst (Atoi f0) in
    f1 ← index f 1;
    let take := fst (Atoi f1) in
    slice v first (add first take)
  else Returns v.

Definition filter (fmlRecord : Fml.fmlRecord) (field : Field.t) : result (list string) :=
  let values := Fml.Filter fmlRecord (Field.Tag field +:+ Field.Subfields field) in
  forRange values (fun f stuff =>
    v ← byteRange (Field.Bytes field) (Join f " ");
    Returns (stuff ++ [v])) [].

(** The inner loop of [extractData]: append the values not yet present. *)
Definition appendNew (f : list string) (field : list string) : list string :=
  foldl (fun field y => if negb (stringInSlice y field) then field ++ [y] else field) field f.

(** [extractData]: [rule] is a pointer, nil when [getRules] found nothing. *)
Definition extractData (rule : option Rule.t) (fmlRecord : Fml.fmlRecord) : result (list string) :=
  match rule with
  | None => Panics NilDereference
  | Some rule =>
      forRange (Rule.Fields rule) (fun r field =>
        f ← filter fmlRecord r;
        Returns (appendNew f field)) []
  end.

Definition applyRule (fmlRecord : Fml.fmlRecord) (rules : list Rule.t) (field : string)
    : result (list string) :=
  let recordFieldRule := getRules rules field in
  extractData recordFieldRule fmlRecord.

Definition getContributors (fmlRecord : Fml.fmlRecord) (rules : list Rule.t) (field : string)
    : result (list Contributor.t) :=
  match getRules rules field with
  | None => Panics NilDereference
  | Some recordFieldRule =>
      forRange (Rule.Fields recordFieldRule) (fun r c =>
        Value ← filter fmlRecord r;
        let y := {| Contributor.Kind := Field.Kind r; Contributor.Value := Value |} in
        Returns (match Value with [] => c | _ => c ++ [y] end)) []
  end.

Definition getRelatedItems (fmlRecord : Fml.fmlRecord) (rules : list Rule.t) (field : string)
    : result (list RelatedItem.t) :=
  match getRules rules field with
  | None => Panics NilDereference
  | Some recordFieldRule =>
      forRange (Rule.Fields recordFieldRule) (fun r c =>
        Value ← filter fmlRecord r;
        let y := {| RelatedItem.Kind := Field.Kind r; RelatedItem.Value := Value |} in
        Returns (match Value with [] => c | _ => c ++ [y] end)) []
  end.

(** ** Derived fields *)

Definition literaryForm (x : list string) : string :=
  match x with
  | [] => ""
  | x0 :: _ => switch x0 [(["0"; "s"; "e"], "nonfiction")] "fiction"
  end.

(** Content type mappings *)
Definition contentType (x : ascii) : string :=
  match x with
  | "c"%char => "Musical score"
  | "d"%char => "Musical score"
  | "e"%char => "Cartographic material"
  | "f"%char => "Cartographic material"
  | "g"%char => "Moving image"
  | "i"%char => "Sound recording"
  | "j"%char => "Sound recording"
  | "k"%char => "Still image"
  | "m"%char => "Computer file"
  | "o"%char => "Kit"
  | "p"%char => "Mixed materials"
  | "r"%char => "Object"
  | _ => "Text"
  end.

(** [TranslateCodes]: [codeMap[c]] is the empty string for a missing key. *)
Definition TranslateCodes (recordCodes : list string) (codeMap : gmap string string)
    : list string :=
  foldl (fun names c =>
           let name := default "" (codeMap !! c) in
           if negb (String.eqb name "") then names ++ [name] else names ++ [c])
        [] recordCodes.

Fixpoint subfieldValue (subs : list Fml.SubField.t) (code : string) : string :=
  match subs with
  | [] => ""
  | x :: rest =>
      if String.eqb (Fml.SubField.Code x) code then Fml.SubField.Value x
      else subfieldValue rest code
  end.

(** [getLinks] *)
Definition getLinks (fmlRecord : Fml.fmlRecord) : list Link.t :=
  let marc856 := Fml.DataField fmlRecord "856" in
  if Nat.eqb (length marc856) 0 then []
  else
    foldl (fun links f =>
             let ind1 := string_of_byte (Fml.DataField.Indicator1 f) in
             let ind2 := string_of_byte (Fml.DataField.Indicator2 f) in
             if String.eqb ind1 "4" && (String.eqb ind2 "0" || String.eqb ind2 "1") then
               let link := {| Link.Kind := subfieldValue (Fml.DataField.SubFields f) "3";
                              Link.URL := subfieldValue (Fml.DataField.SubFields f) "u";
                              Link.Text := subfieldValue (Fml.DataField.SubFields f) "y";
                              Link.Restrictions := subfieldValue (Fml.DataField.SubFields f) "z" |} in
               let link := if String.eqb (Link.Kind link) ""
                           then {| Link.Kind := "unknown";
                                   Link.URL := Link.URL link;
                                   Link.Text := Link.Text link;
                                   Link.Restrictions := Link.Restrictions link |}
                           else link in
               links ++ [link]
             else links)
          [] marc856.

(** ** The lookup tables of the holdings *)

Definition collectionCases (loc : string) : list (list string * string) :=
  [ (["STACK"], "Stacks");
    (["ATLCS"], "Atlas Case");
    (["AUDBK"], "Audiobooks");
    (["JRNAL"], if String.eqb loc "HUM" then "Humanities Journals"
                else if String.eqb loc "SCI" then "Science Journals"
                else "Journal Collection");
    (["BRWS"], "Browsery");
    (["CNSUS"], "Census Collection");
    (["CIRCD"], "Service Desk");
    (["DETEC"], "Detective Fiction Collection");
    (["EJ"], "Electronic Journal");
    (["GIS"], "GIS Collection");
    (["GOV"], "Government Documents");
    (["GRNVL"], "Graphic Novel Collection");
    (["HDCBX"], "Harvard Depository Boxed Items");
    (["ICPSR"], "ICPSR Codebooks");
    (["IMPLS"], "Impulse Borrowing Display");
    (["LSA4"], "Journal Collection");
    (["OVRSZ"], "Oversize Materials");
    (["LMTED"], "Limited Access Collection");
    (["MAPRM"], "Map Room");
    (["MFORM"], "Microforms");
    (["MEDIA"], "Media");
    (["NCIP"], "BLC ILB Item");
    (["NEWBK"], "Science New Books Display");
    (["NOLN1"], "Noncirculating Collection 1");
    (["NOLN2"], "Noncirculating Collection 2");
    (["NOLN3"], "Noncirculating Collection 3");
    (["OCC"], "Off Campus Collection");
    (["OCCBX"], "Off Campus Collection Boxed Items");
    (["OFFCT"], "Offsite Cataloging");
    (["PAMPH"], "Pamphlet Collection");
    (["PRECT"], if String.eqb loc "HUM" then "Humanities Pre-cataloged Collection"
                else if String.eqb loc "SCI" then "Science Pre-cataloged Collection"
                else "Pre-cataloged Collection");
    (["REF"], "Reference Collection");
    (["RSERV"], "Reserve Stacks");
    (["SWING"], "Basement Grammar Books");
    (["TRAVL"], "Travel Collection");
    (["UNCAT"], "Uncataloged Materials - see Librarian");
    (["UNKNW"], "Problems Materials - see Librarian");
    (["WSTM"], "Women in Science, Technology, and Medicine") ].

Definition lookupCollection (col : string) (loc : string) : string :=
  switch col (collectionCases loc) col.

Definition locationCases : list (list string * string) :=
  [ (["HUM"; "RBR"; "SCI"], "Hayden Library");
    (["MIT50"], "MIT Administrative Library");
    (["ARC"], "Institute Archives");
    (["ACQ"], "Institute Archives");
    (["ENG"], "Barker Library");
    (["CAT"], "Cataloging and Metadata Services");
    (["DEW"], "Dewey Library");
    (["DIR"], "Director's Office");
    (["DOC"], "Document Services");
    (["ILB"], "Interlibrary Borrowing");
    (["LSA"], "Library Storage Annex");
    (["NET"], "Internet Resource");
    (["MUS"], "Lewis Music Library");
    (["PHY"], "Physics Department Reading Room");
    (["RTC"], "Rotch Library");
    (["RVC"], "Rotch Visual Collections");
    (["SPC"], "Space Cntr: Ask library staff");
    (["OFFIC"], "Office delivery") ].

Definition lookupLocation (loc : string) : string :=
  switch loc locationCases loc.

Definition formatCases : list (list string * string) :=
  [ (["BOOKS"; "REGULAR"], "Print volume");
    (["ATLAS"], "Atlas");
    (["AUDIO"; "AUDTAPE"], "Audio tape");
    (["CD"], "Compact disc");
    (["CDROM"], "CD-ROM");
    (["DSKETTE"], "Diskette");
    (["DVD"], "DVD-ROM");
    (["FICHE"], "Microfiche");
    (["FOLIO"; "OVRSIZE"], "Oversized print volume");
    (["MAP"], "Map sheet");
    (["MFILM"], "Microfilm");
    (["RECORD"], "Audio record");
    (["SCORE"], "Musical score");
    (["SMALL"], "Undersized print volume");
    (["VDISC"], "Videodisc");
    (["VHS"], "VHS") ].

Definition lookupFormat (loc : string) (format_code : string) : string :=
  if negb (String.eqb loc "Internet Resource")
  then switch format_code formatCases "Print volume"
  else "".

(** The codes a table lists. *)
Definition listedCodes {A} (cases : list (list string * A)) : list string :=
  concat (map fst cases).

(** [getHoldings]: one holding per data field with the tag. *)
Definition getHoldings (fmlRecord : Fml.fmlRecord) (tag : string)
    (subfieldCodes : list string) : result (list Holding.t) :=
  let df := Fml.DataField fmlRecord tag in
  if Nat.eqb (length df) 0 then Returns []
  else
    forRange df (fun f holdings =>
      let subs := Fml.DataField.SubFields f in
      c0 ← index subfieldCodes 0;
      c1 ← index subfieldCodes 1;
      c2 ← index subfieldCodes 2;
      c3 ← index subfieldCodes 3;
      c4 ← index subfieldCodes 4;
      let Location := lookupLocation (subfieldValue subs c0) in
      let Collection := lookupCollection (subfieldValue subs c1) (subfieldValue subs c0) in
      Format ← (if String.eqb tag "866" then Returns "Print volume"
                else c5 ← index subfieldCodes 5;
                     Returns (lookupFormat Location (subfieldValue subs c5)));
      let holding := {| Holding.Location := Location;
                        Holding.Collection := Collection;
                        Holding.CallNumber := subfieldValue subs c2;
                        Holding.Summary := subfieldValue subs c3;
                        Holding.Notes := subfieldValue subs c4;
                        Holding.Format := Format |} in
      Returns (holdings ++ [holding])) []
  .

(** The holdings of a record as [marcToRecord] computes them: the "866"
    fields, and the "852" fields when there is no holding from "866". *)
Definition recordHoldings (fmlRecord : Fml.fmlRecord) : result (list Holding.t) :=
  Holdings ← getHoldings fmlRecord "866" ["b"; "c"; "h"; "a"; "z"];
  if Nat.eqb (length Holdings) 0
  then getHoldings fmlRecord "852" ["b"; "c"; "h"; "a"; "z"; "k"]
  else Returns Holdings.

(** The loop that collects the formats of the holdings. *)
Definition holdingFormats (Holdings : list Holding.t) (Format : list string) : list string :=
  foldl (fun Format h =>
           if negb (stringInSlice (Holding.Format h) Format)
           then Format ++ [Holding.Format h] else Format)
        Format Holdings.

(** ** Mapping one record, and the producer loop *)

Section Mapper.

(** [strings.TrimSpace], which trims Unicode white space; it only touches
    the LCCN and is left abstract. *)
Variable TrimSpace : string -> string.

(** [marcToRecord]: the record and the error it returns, unless it panics. *)
Definition marcToRecord (fmlRecord : Fml.fmlRecord) (rules : list Rule.t)
    (languageCodes countryCodes : gmap string string) : result (Rec.t * option string) :=
  let Identifier := Fml.ControlNum fmlRecord in
  let Source := "MIT Aleph" in
  let SourceLink := "https://library.mit.edu/item/" +:+ Identifier in
  OclcNumber ← applyRule fmlRecord rules "oclc_number";
  lccn ← applyRule fmlRecord rules "lccn";
  let Lccn := match lccn with [] => "" | lccn0 :: _ => TrimSpace lccn0 end in
  title ← applyRule fmlRecord rules "title";
  match title with
  | [] =>
      let err := "Record " +:+ Identifier +:+ " has no title, check validity" in
      Returns ({| Rec.Identifier := Identifier; Rec.Source := Source;
                  Rec.SourceLink := SourceLink; Rec.Title := "";
                  Rec.AlternateTitles := []; Rec.Creator := []; Rec.Contributor := [];
                  Rec.Subject := []; Rec.Isbn := []; Rec.Issn := []; Rec.Doi := [];
                  Rec.OclcNumber := OclcNumber; Rec.Lccn := Lccn; Rec.Country := "";
                  Rec.Language := []; Rec.PublicationDate := ""; Rec.ContentType := "";
                  Rec.CallNumber := []; Rec.Edition := ""; Rec.Imprint := [];
                  Rec.PhysicalDescription := ""; Rec.PublicationFrequency := [];
                  Rec.Numbering := ""; Rec.Notes := []; Rec.Contents := [];
                  Rec.Summary := []; Rec.Format := []; Rec.LiteraryForm := "";
                  Rec.RelatedPlace := []; Rec.InBibliography := [];
                  Rec.RelatedItems := []; Rec.Links := []; Rec.Holdings := [] |},
               Some err)
  | Title :: _ =>
      AlternateTitles ← applyRule fmlRecord rules "alternate_titles";
      Creator ← applyRule fmlRecord rules "creators";
      Contributor ← getContributors fmlRecord rules "contributors";
      RelatedPlace ← applyRule fmlRecord rules "related_place";
      RelatedItems ← getRelatedItems fmlRecord rules "related_items";
      InBibliography ← applyRule fmlRecord rules "in_bibliography";
      Subject ← applyRule fmlRecord rules "subjects";
      Isbn ← applyRule fmlRecord rules "isbns";
      Issn ← applyRule fmlRecord rules "issns";
      Doi ← applyRule fmlRecord rules "dois";
      country ← applyRule fmlRecord rules "place_of_publication";
      Country ← match country with
                | [] => Returns ""
                | country0 :: rest =>
                    index (TranslateCodes (Trim country0 " |" :: rest) countryCodes) 0
                end;
      Language ← applyRule fmlRecord rules "languages";
      let Language := TranslateCodes Language languageCodes in
      CallNumber ← applyRule fmlRecord rules "call_numbers";
      edition ← applyRule fmlRecord rules "edition";
      let Edition := match edition with [] => "" | e0 :: _ => e0 end in
      Imprint ← applyRule fmlRecord rules "imprint";
      description ← applyRule fmlRecord rules "physical_description";
      let PhysicalDescription := match description with [] => "" | d0 :: _ => d0 end in
      PublicationFrequency ← applyRule fmlRecord rules "publication_frequency";
      date ← applyRule fmlRecord rules "publication_date";
      let PublicationDate := match date with [] => "" | d0 :: _ => d0 end in
      numbering ← applyRule fmlRecord rules "numbering";
      let Numbering := match numbering with [] => "" | n0 :: _ => n0 end in
      Notes ← applyRule fmlRecord rules "notes";
      Contents ← applyRule fmlRecord rules "contents";
      Summary ← applyRule fmlRecord rules "summary";
      let ContentType := contentType (Fml.Leader_Type fmlRecord) in
      lf ← applyRule fmlRecord rules "literary_form";
      let LiteraryForm := literaryForm lf in
      let Links := getLinks fmlRecord in
      Holdings ← recordHoldings fmlRecord;
      let Format := holdingFormats Holdings [] in
      Returns ({| Rec.Identifier := Identifier; Rec.Source := Source;
                  Rec.SourceLink := SourceLink; Rec.Title := Title;
                  Rec.AlternateTitles := AlternateTitles; Rec.Creator := Creator;
                  Rec.Contributor := Contributor; Rec.Subject := Subject;
                  Rec.Isbn := Isbn; Rec.Issn := Issn; Rec.Doi := Doi;
                  Rec.OclcNumber := OclcNumber; Rec.Lccn := Lccn; Rec.Country := Country;
                  Rec.Language := Language; Rec.PublicationDate := PublicationDate;
                  Rec.ContentType := ContentType; Rec.CallNumber := CallNumber;
                  Rec.Edition := Edition; Rec.Imprint := Imprint;
                  Rec.PhysicalDescription := PhysicalDescription;
                  Rec.PublicationFrequency := PublicationFrequency;
                  Rec.Numbering := Numbering; Rec.Notes := Notes; Rec.Contents := Contents;
                  Rec.Summary := Summary; Rec.Format := Format;
                  Rec.LiteraryForm := LiteraryForm; Rec.RelatedPlace := RelatedPlace;
                  Rec.InBibliography := InBibliography; Rec.RelatedItems := RelatedItems;
                  Rec.Links := Links; Rec.Holdings := Holdings |},
               None)
  end.

(** The parser: the decoded stream, the rules and the two code tables. *)
Record marcparser : Type := {
  file : list Fml.value;
  rules : list Rule.t;
  languageCodes : gmap string string;
  countryCodes : gmap string string
}.

(** How the producer goroutine ends: it closes the channel, or a panic
    ends the process. *)
Inductive ending : Set :=
| Closed
| Crashed (p : panic).

(** [parse]: the loop over the iterator.  [out] is what has been sent on
    the channel so far; the result is everything sent and the ending. *)
Fixpoint parseLoop (m : marcparser) (stream : list Fml.value) (out : list Rec.t)
    : list Rec.t * ending :=
  match stream with
  | [] => (out, Closed)
  | v :: rest =>
      match Fml.err v with
      | Some _ => parseLoop m rest out
      | None =>
          match marcToRecord (Fml.record v) (rules m) (languageCodes m) (countryCodes m) with
          | Panics p => (out, Crashed p)
          | Returns (_, Some _) => parseLoop m rest out
          | Returns (r, None) => parseLoop m rest (out ++ [r])
          end
      end
  end.

Definition parse (m : marcparser) (out : list Rec.t) : list Rec.t * ending :=
  parseLoop m (file m) out.

(** [Generate], given what [RetrieveRules] and [RetrieveCodelist] loaded
    (their errors are dumped and the run goes on with what they returned). *)
Definition Generate (marcfile : list Fml.value) (rules : list Rule.t)
    (languageCodes countryCodes : gmap string string) : list Rec.t * ending :=
  let p := {| file := marcfile; rules := rules; languageCodes := languageCodes;
              countryCodes := countryCodes |} in
  parse p [].

End Mapper.

(** The labels [marcToRecord] looks up, in the order of the code. *)
Definition mapperLabels : list string :=
  [ "oclc_number"; "lccn"; "title"; "alternate_titles"; "creators"; "contributors";
    "related_place"; "related_items"; "in_bibliography"; "subjects"; "isbns"; "issns";
    "dois"; "place_of_publication"; "languages"; "call_numbers"; "edition"; "imprint";
    "physical_description"; "publication_frequency"; "publication_date"; "numbering";
    "notes"; "contents"; "summary"; "literary_form" ].

(** ** Loading a code table *)

(** The element [RetrieveCodelist] decodes a code into. *)
Module CodeMap.
Record t : Type := { Name : string; Code : string }.
End CodeMap.

(** What [decoder.Token()] gives to the loop of [RetrieveCodelist]: a start
    element, with its local name and with what [DecodeElement] reads from
    it, or another token.  The XML decoder itself is external. *)
Inductive token : Type :=
| StartElement (Local : string) (decoded : CodeMap.t)
| OtherToken.

(** [RetrieveCodelist], on the tokens of the opened file: every start
    element named [codeType] is decoded and stored under its code. *)
Definition RetrieveCodelist (codeType : string) (tokens : list token) : gmap string string :=
  foldl (fun codes t =>
           match t with
           | StartElement Local c =>
               if String.eqb Local codeType
               then <[CodeMap.Code c := CodeMap.Name c]> codes
               else codes
           | OtherToken => codes
           end)
        ∅ tokens.

End Marc.

(* ===================================================================== *)
(** * The decoder of the older parser: package marc21                     *)
(* ===================================================================== *)

(** As for fml, a record is what the accessors in use answer. *)
Module Marc21.

Module SubField.
Record t : Type := { Code : ascii; Value : string }.
End SubField.

(** The two kinds of fields behind the interface [marc21.Field]. *)
Inductive Field : Type :=
| DataField (Tag : string) (SubFields : list SubField.t)
| ControlField (Tag : string) (Data : string).

Record marcRecord : Type := {
  Identifier : string;                 (* r.Identifier() *)
  Leader_Type : ascii;                 (* r.Leader.Type *)
  GetFields : string -> list Field     (* r.GetFields(tag) *)
}.

(** What [marc21.ReadRecord] gives: a record, or an error that is not
    [io.EOF]; the end of the list is [io.EOF]. *)
Inductive read : Type :=
| ReadRecord (r : marcRecord)
| ReadError (err : string).

End Marc21.

(* ===================================================================== *)
(** * package marc: parsers/marc.go                                       *)
(* ===================================================================== *)

Module Parsers.

(** Content type mappings *)
Definition contentType (x : ascii) : string :=
  match x with
  | "c"%char => "Musical score"
  | "d"%char => "Musical score"
  | "e"%char => "Cartographic material"
  | "f"%char => "Cartographic material"
  | "g"%char => "Moving image"
  | "i"%char => "Sound recording"
  | "j"%char => "Sound recording"
  | "k"%char => "Still image"
  | "m"%char => "Computer file"
  | "o"%char => "Kit"
  | "p"%char => "Mixed materials"
  | "r"%char => "Object"
  | _ => "Text"
  end.

(** The record of the older parser. *)
Module Rec.
Record t : Type := {
  identifier : string;
  title : string;
  author : list string;
  contributor : list string;
  url : list string;
  subject : list string;
  isbn : list string;
  year : string;
  content_type : string
}.
End Rec.

(** Rules defines where the rules are in JSON *)
Module Rules.
Record t : Type := { Field : string; Tag : string; Subfields : string }.
End Rules.

(** [getRule]: the first rule with the tag, or the nil pointer. *)
Fixpoint getRule (rules : list Rules.t) (tag : string) : option Rules.t :=
  match rules with
  | [] => None
  | v :: rest => if String.eqb (Rules.Tag v) tag then Some v else getRule rest tag
  end.

(** Contains tells whether a contains x. *)
Fixpoint Contains (a : list ascii) (x : ascii) : bool :=
  match a with
  | [] => false
  | n :: rest => if Ascii.eqb x n then true else Contains rest x
  end.

Definition stringifySelectSubfields (field : Marc21.Field) (subfields : list ascii) : string :=
  let stringified :=
    match field with
    | Marc21.DataField _ SubFields =>
        foldl (fun stringified s =>
                 if Contains subfields (Marc21.SubField.Code s)
                 then stringified ++ [Marc21.SubField.Value s]
                 else stringified)
              [] SubFields
    | Marc21.ControlField _ Data => [Data]
    end in
  Join stringified " ".

Definition collectSubfields (marcfield : string) (subfields : list ascii)
    (marcrecord : Marc21.marcRecord) : list string :=
  let fields := Marc21.GetFields marcrecord marcfield in
  foldl (fun r f => r ++ [stringifySelectSubfields f subfields]) [] fields.

(** [toRecord]: [rule] is a pointer, nil when [getRule] found nothing. *)
Definition toRecord (field : list string) (rule : option Rules.t)
    (marcRecord : Marc21.marcRecord) : result (list string) :=
  match rule with
  | None => Panics NilDereference
  | Some rule =>
      Returns (field ++ collectSubfields (Rules.Tag rule)
                          (list_ascii_of_string (Rules.Subfields rule)) marcRecord)
  end.

(** [marcToRecord] of the older parser: it has no error result. *)
Definition marcToRecord (marcRecord : Marc21.marcRecord) (rules : list Rules.t)
    : result Rec.t :=
  let identifier := Marc21.Identifier marcRecord in
  title ← match getRule rules "245" with
          | None => Panics NilDereference
          | Some rule =>
              index (collectSubfields (Rules.Tag rule)
                       (list_ascii_of_string (Rules.Subfields rule)) marcRecord) 0
          end;
  author ← toRecord [] (getRule rules "100") marcRecord;
  contributor ← toRecord [] (getRule rules "700") marcRecord;
  url ← toRecord [] (getRule rules "856") marcRecord;
  subject ← toRecord [] (getRule rules "600") marcRecord;
  subject ← toRecord subject (getRule rules "610") marcRecord;
  subject ← toRecord subject (getRule rules "650") marcRecord;
  subject ← toRecord subject (getRule rules "651") marcRecord;
  isbn ← toRecord [] (getRule rules "020") marcRecord;
  year ← match getRule rules "008" with
         | None => Panics NilDereference
         | Some rule =>
             v ← index (collectSubfields (Rules.Tag rule)
                          (list_ascii_of_string (Rules.Subfields rule)) marcRecord) 0;
             slice v 7 11
         end;
  let content_type := contentType (Marc21.Leader_Type marcRecord) in
  Returns {| Rec.identifier := identifier; Rec.title := title; Rec.author := author;
             Rec.contributor := contributor; Rec.url := url; Rec.subject := subject;
             Rec.isbn := isbn; Rec.year := year; Rec.content_type := content_type |}.

(** How [Process] ends: it dumps the records and logs their count, it
    returns at once because the rules could not be read, [log.Fatal] ends
    the process on a read error after [count] records, or a panic does. *)
Inductive outcome : Type :=
| Dumped (records : list Rec.t) (count : nat)
| NoRules
| Fatal (count : nat)
| Crashed (p : panic).

(** The loop of [Process] over what [marc21.ReadRecord] gives. *)
Fixpoint processLoop (marcfile : list Marc21.read) (rules : list Rules.t)
    (records : list Rec.t) (count : nat) : outcome :=
  match marcfile with
  | [] => Dumped records count
  | Marc21.ReadError _ :: _ => Fatal count
  | Marc21.ReadRecord record :: rest =>
      match marcToRecord record rules with
      | Returns r => processLoop rest rules (records ++ [r]) (S count)
      | Panics p => Crashed p
      end
  end.

(** [Process]; [rules] is what [RetrieveRules] returned, [None] when it
    returned an error. *)
Definition Process (marcfile : list Marc21.read) (rules : option (list Rules.t)) : outcome :=
  match rules with
  | None => NoRules
  | Some rules => processLoop marcfile rules [] 0
  end.

End Parsers.


(* ===================================================================== *)
(** * Vocabulary of the statements                                        *)
(* ===================================================================== *)

Module Spec.

Import Marc.

(** The type bytes the content type table lists. *)
Definition contentTypeCodes : list ascii :=
  ["c"; "d"; "e"; "f"; "g"; "i"; "j"; "k"; "m"; "o"; "p"; "r"]%char.

(** An electronic-access field qualifies for a link when its first
    indicator is 4 and its second indicator is 0 or 1. *)
Definition qualifies (f : Fml.DataField.t) : bool :=
  Ascii.eqb (Fml.DataField.Indicator1 f) "4" &&
  (Ascii.eqb (Fml.DataField.Indicator2 f) "0" || Ascii.eqb (Fml.DataField.Indicator2 f) "1").

(** The value of the first subfield with the code, if the field has one. *)
Definition firstSubfield (subs : list Fml.SubField.t) (code : string) : option string :=
  Fml.SubField.Value <$> List.find (fun s => String.eqb (Fml.SubField.Code s) code) subs.

(** The link of a qualifying field, in the words of the data model: kind,
    URL, text and restriction note from the subfields 3, u, y and z, the
    kind "unknown" when subfield 3 is absent or empty. *)
Definition linkOf (f : Fml.DataField.t) : Link.t :=
  let subs := Fml.DataField.SubFields f in
  {| Link.Kind := match firstSubfield subs "3" with
                  | Some kind => if String.eqb kind "" then "unknown" else kind
                  | None => "unknown"
                  end;
     Link.URL := default "" (firstSubfield subs "u");
     Link.Text := default "" (firstSubfield subs "y");
     Link.Restrictions := default "" (firstSubfield subs "z") |}.

(** The position of the first occurrence of a value in a list. *)
Fixpoint firstIndex (x : string) (l : list string) : option nat :=
  match l with
  | [] => None
  | y :: rest => if String.eqb y x then Some 0%nat else S <$> firstIndex x rest
  end.

(** The holding of a field of the primary family, "866". *)
Definition holding866 (f : Fml.DataField.t) : Holding.t :=
  let subs := Fml.DataField.SubFields f in
  {| Holding.Location := lookupLocation (subfieldValue subs "b");
     Holding.Collection := lookupCollection (subfieldValue subs "c") (subfieldValue subs "b");
     Holding.CallNumber := subfieldValue subs "h";
     Holding.Summary := subfieldValue subs "a";
     Holding.Notes := subfieldValue subs "z";
     Holding.Format := "Print volume" |}.

(** The holding of a field of the fallback family, "852". *)
Definition holding852 (f : Fml.DataField.t) : Holding.t :=
  let subs := Fml.DataField.SubFields f in
  {| Holding.Location := lookupLocation (subfieldValue subs "b");
     Holding.Collection := lookupCollection (subfieldValue subs "c") (subfieldValue subs "b");
     Holding.CallNumber := subfieldValue subs "h";
     Holding.Summary := subfieldValue subs "a";
     Holding.Notes := subfieldValue subs "z";
     Holding.Format := lookupFormat (lookupLocation (subfieldValue subs "b"))
                         (subfieldValue subs "k") |}.

(** [strings.TrimSpace] on strings of ASCII bytes: the white space of
    ASCII is tab, line feed, vertical tab, form feed, carriage return and
    space.  The examples instantiate the mapper with it. *)
Definition asciiSpace : string :=
  string_of_list_ascii (map ascii_of_nat [9; 10; 11; 12; 13; 32]%nat).

Definition TrimSpaceASCII (s : string) : string := Trim s asciiSpace.






(** The parser over a stream with the given rules and code tables. *)
Definition parserOf (stream : list Fml.value) (rules : list Rule.t)
    (languageCodes countryCodes : gmap string string) : marcparser :=
  {| file := stream; rules := rules; languageCodes := languageCodes;
     countryCodes := countryCodes |}.

(** ** Example records and rules *)

Definition subfield (code value : string) : Fml.SubField.t :=
  {| Fml.SubField.Code := code; Fml.SubField.Value := value |}.

Definition datafield (tag : string) (ind1 ind2 : ascii) (subs : list Fml.SubField.t)
    : Fml.DataField.t :=
  {| Fml.DataField.Tag := tag; Fml.DataField.Indicator1 := ind1;
     Fml.DataField.Indicator2 := ind2; Fml.DataField.SubFields := subs |}.

Definition fieldSpec (tag subfields bytes : string) : Field.t :=
  {| Field.Tag := tag; Field.Subfields := subfields; Field.Bytes := bytes;
     Field.Kind := "" |}.

Definition rule (label : string) (fields : list Field.t) : Rule.t :=
  {| Rule.Label := label; Rule.Array := true; Rule.Fields := fields |}.

(** A ruleset with a rule for every label of the mapper: the title from
    245 $a $b, the subjects from 650 $a and 651 $a, the publication date
    from the bytes 1..3 of 245 $a, and no field for the other labels. *)
Definition exampleRules : list Rule.t :=
  map (fun label =>
         rule label
           (if String.eqb label "title" then [fieldSpec "245" "ab" ""]
            else if String.eqb label "subjects"
                 then [fieldSpec "650" "a" ""; fieldSpec "651" "a" ""]
            else if String.eqb label "publication_date" then [fieldSpec "245" "a" "1:3"]
            else []))
      mapperLabels.


(** A record with a title, three subject fields, two link fields and one
    holdings field of each family. *)
Definition exampleRecord : Fml.fmlRecord :=
  Fml.recordOf "001" "a"
    [ datafield "245" " " " " [subfield "a" "Title"; subfield "b" "sub"];
      datafield "650" " " " " [subfield "a" "a"];
      datafield "650" " " " " [subfield "a" "b"];
      datafield "651" " " " " [subfield "a" "a"];
      datafield "856" "4" "0" [subfield "u" "http://x"];
      datafield "856" "4" "2" [subfield "u" "http://y"];
      datafield "852" " " " " [subfield "b" "HUM"; subfield "c" "STACK"; subfield "k" "MAP"];
      datafield "866" " " " " [subfield "b" "SCI"; subfield "a" "v.1-3"] ].

(** A record without a title field. *)
Definition untitledRecord : Fml.fmlRecord :=
  Fml.recordOf "002" "a" [ datafield "650" " " " " [subfield "a" "a"] ].

(** A record with a title and one link field, and nothing else. *)
Definition linkRecord : Fml.fmlRecord :=
  Fml.recordOf "003" "a"
    [ datafield "245" " " " " [subfield "a" "Title"];
      datafield "856" "4" "0" [subfield "u" "http://x"] ].

(** A record whose title is one byte long. *)
Definition shortRecord : Fml.fmlRecord :=
  Fml.recordOf "004" "a" [ datafield "245" " " " " [subfield "a" "T"] ].

Definition decoded (r : Fml.fmlRecord) : Fml.value :=
  {| Fml.record := r; Fml.err := None |}.

(** ** Vocabulary of the further properties *)

(** The entries [getContributors] and [getRelatedItems] build from the
    field specifications and the values extracted under each: one entry,
    with the kind of the specification, for each one that has values. *)
Definition entriesWithValues {A} (mk : string -> list string -> A)
    (fields : list Field.t) (vss : list (list string)) : list A :=
  omap (fun p : Field.t * list string =>
          match snd p with
          | [] => None
          | _ => Some (mk (Field.Kind (fst p)) (snd p))
          end)
       (zip fields vss).

(** The number of subfield codes [getHoldings] reads for a tag. *)
Definition codesNeeded (tag : string) : nat :=
  if String.eqb tag "866" then 5 else 6.



(** The elements of a code list that are named [codeType], as decoded. *)
Definition entriesOf (codeType : string) (tokens : list token) : list CodeMap.t :=
  omap (fun t => match t with
                 | StartElement Local c =>
                     if String.eqb Local codeType then Some c else None
                 | OtherToken => None
                 end)
       tokens.

(** The tags whose rules the older parser looks up, in the order of the
    code. *)
Definition parserTags : list string :=
  ["245"; "100"; "700"; "856"; "600"; "610"; "650"; "651"; "020"; "008"].

(** The values the older parser collects for a tag under the rules. *)
Definition collected (marcRecord : Marc21.marcRecord) (rules : list Parsers.Rules.t)
    (tag : string) : list string :=
  match Parsers.getRule rules tag with
  | Some rule =>
      map (fun f => Parsers.stringifySelectSubfields f
                      (list_ascii_of_string (Parsers.Rules.Subfields rule)))
          (Marc21.GetFields marcRecord tag)
  | None => []
  end.

(** A record for the older parser: a title, the fixed-length data of
    "008", two subjects and a URL on a field whose indicators the newer
    mapper would not accept. *)
Definition olderRecord : Marc21.marcRecord :=
  let fields :=
    [ Marc21.ControlField "008" "850101s1985    xx";
      Marc21.DataField "245" [ {| Marc21.SubField.Code := "a"; Marc21.SubField.Value := "T" |} ];
      Marc21.DataField "650" [ {| Marc21.SubField.Code := "a"; Marc21.SubField.Value := "x" |} ];
      Marc21.DataField "651" [ {| Marc21.SubField.Code := "a"; Marc21.SubField.Value := "x" |} ];
      Marc21.DataField "856" [ {| Marc21.SubField.Code := "u"; Marc21.SubField.Value := "u1" |} ] ] in
  {| Marc21.Identifier := "1";
     Marc21.Leader_Type := "a";
     Marc21.GetFields := fun tag =>
       List.filter (fun f => match f with
                             | Marc21.DataField t _ | Marc21.ControlField t _ => String.eqb t tag
                             end) fields |}.

(** Rules for the ten tags of the older parser. *)
Definition olderRules : list Parsers.Rules.t :=
  map (fun tag => {| Parsers.Rules.Field := tag; Parsers.Rules.Tag := tag;
                     Parsers.Rules.Subfields := "a" |})
      parserTags.

End Spec.
Import Marc Spec.

(* ===================================================================== *)
(** * Properties of the runtime model                                     *)
(* ===================================================================== *)

Lemma bind_Returns {A B} (r : result A) (k : A -> result B) (b : B) :
  r ≫= k = Returns b -> exists a, r = Returns a /\ k a = Returns b.
Proof. destruct r as [a|p]; simpl; [eauto | discriminate]. Qed.

Section Loops.

Context {A B : Type}.

(** A loop whose body appends to its accumulator what [g] gives for the
    element builds the concatenation. *)
Lemma foldl_appending (f : list B -> A -> list B) (g : A -> list B) :
  (forall acc x, f acc x = acc ++ g x) ->
  forall l acc, foldl f acc l = acc ++ concat (map g l).
Proof.
  intros Hf l. induction l as [|x l IH]; intros acc; simpl.
  - now rewrite app_nil_r.
  - rewrite IH, Hf. now rewrite <- app_assoc.
Qed.

End Loops.

Lemma switch_default {A} (x : string) (cases : list (list string * A)) (d : A) :
  ~ In x (listedCodes cases) -> switch x cases d = d.
Proof.
  induction cases as [|[labels body] cases IH]; simpl; [reflexivity|].
  unfold listedCodes in *. simpl. intros Hx.
  destruct (existsb (String.eqb x) labels) eqn:E.
  - exfalso. apply Hx, in_or_app. left.
    apply existsb_exists in E as (l & Hl & El).
    apply String.eqb_eq in El. now subst.
  - apply IH. intros H. apply Hx, in_or_app. now right.
Qed.

(* ===================================================================== *)
(** * Content type                                                        *)
(* ===================================================================== *)

(** C9.  [contentType] gives a label for each of the 256 byte values: the
    twelve listed bytes have the labels of the table, and every other byte
    is "Text".  The table of parsers/marc.go is the same function. *)
Theorem contentType_total (x : ascii) :
  (contentType "c" = "Musical score" /\ contentType "d" = "Musical score" /\
   contentType "e" = "Cartographic material" /\
   contentType "f" = "Cartographic material" /\
   contentType "g" = "Moving image" /\
   contentType "i" = "Sound recording" /\ contentType "j" = "Sound recording" /\
   contentType "k" = "Still image" /\ contentType "m" = "Computer file" /\
   contentType "o" = "Kit" /\ contentType "p" = "Mixed materials" /\
   contentType "r" = "Object") /\
  (~ In x contentTypeCodes -> contentType x = "Text") /\
  Parsers.contentType x = contentType x.
Proof.
  split; [repeat split; reflexivity|].
  split; [|destruct x as [[] [] [] [] [] [] [] []]; reflexivity].
  intros Hx.
  destruct x as [[] [] [] [] [] [] [] []]; try reflexivity;
    exfalso; apply Hx; unfold contentTypeCodes; simpl; tauto.
Qed.

Lemma contentType_total_witness :
  ~ In "a"%char contentTypeCodes /\ contentType "a" = "Text".
Proof.
  assert (H : ~ In "a"%char contentTypeCodes).
  { unfold contentTypeCodes. simpl. intros H.
    repeat (destruct H as [H|H]; [discriminate H|]). exact H. }
  split; [exact H|].
  exact (proj1 (proj2 (contentType_total "a")) H).
Defined.

(* ===================================================================== *)
(** * The lookup tables of the holdings                                   *)
(* ===================================================================== *)

(** C6, as the code has it.  A code that the location table does not list
    is returned unchanged, and so is a code the collection table does not
    list; a format code that the format table does not list becomes
    "Print volume", or the empty string at the location
    "Internet Resource". *)
Theorem lookup_unlisted (x loc : string) :
  (~ In x (listedCodes locationCases) -> lookupLocation x = x) /\
  (~ In x (listedCodes (collectionCases loc)) -> lookupCollection x loc = x) /\
  (~ In x (listedCodes formatCases) ->
     lookupFormat loc x = if String.eqb loc "Internet Resource" then "" else "Print volume").
Proof.
  repeat split; intros Hx.
  - now apply switch_default.
  - now apply switch_default.
  - unfold lookupFormat. destruct (String.eqb loc "Internet Resource");
      [reflexivity | now apply switch_default].
Qed.

Lemma not_listed_dec (x : string) (l : list string) :
  forallb (fun y => negb (String.eqb y x)) l = true -> ~ In x l.
Proof.
  intros H Hin. rewrite forallb_forall in H. specialize (H x Hin).
  now rewrite String.eqb_refl in H.
Qed.

Lemma lookup_unlisted_witness :
  lookupLocation "XYZ" = "XYZ" /\ lookupCollection "XYZ" "HUM" = "XYZ" /\
  lookupFormat "HUM" "XYZ" = "Print volume".
Proof.
  destruct (lookup_unlisted "XYZ" "HUM") as (H1 & H2 & H3).
  split; [|split].
  - apply H1. apply not_listed_dec. reflexivity.
  - apply H2. apply not_listed_dec. reflexivity.
  - apply H3. apply not_listed_dec. reflexivity.
Defined.

(** C6 as stated fails for the format table: the format code "XYZ" is not
    listed, and it is not passed through. *)
Lemma lookupFormat_no_passthrough :
  ~ In "XYZ" (listedCodes formatCases) /\
  lookupFormat "Hayden Library" "XYZ" = "Print volume" /\
  lookupFormat "Hayden Library" "XYZ" <> "XYZ".
Proof.
  split; [apply not_listed_dec; reflexivity|].
  split; [reflexivity | discriminate].
Qed.

(* ===================================================================== *)
(** * Code translation                                                    *)
(* ===================================================================== *)

Section Translate.

Variable codeMap : gmap string string.

(** What the loop body appends for the code [c]. *)
Let translated (c : string) : string :=
  let name := default "" (codeMap !! c) in
  if negb (String.eqb name "") then name else c.

Lemma TranslateCodes_map (recordCodes : list string) :
  TranslateCodes recordCodes codeMap = map translated recordCodes.
Proof.
  unfold TranslateCodes.
  rewrite (foldl_appending _ (fun c => [translated c])).
  - simpl. induction recordCodes as [|c l IH]; simpl; [reflexivity | now rewrite IH].
  - intros acc c. unfold translated. simpl.
    now destruct (negb (String.eqb (default "" (codeMap !! c)) "")).
Qed.

Lemma TranslateCodes_lookup (recordCodes : list string) (i : nat) (c : string) :
  recordCodes !! i = Some c ->
  TranslateCodes recordCodes codeMap !! i = Some (translated c).
Proof.
  intros H. rewrite TranslateCodes_map, list_lookup_fmap, H. reflexivity.
Qed.

End Translate.

(** C7, as the code has it.  [TranslateCodes] gives one output per input
    code, in the same order: the label of the code when the table has a
    non-empty label for it, and the code itself otherwise (no entry, or an
    entry whose label is the empty string). *)
Theorem TranslateCodes_one_per_code (recordCodes : list string)
    (codeMap : gmap string string) :
  length (TranslateCodes recordCodes codeMap) = length recordCodes /\
  (forall i c, recordCodes !! i = Some c ->
     TranslateCodes recordCodes codeMap !! i =
       Some (match codeMap !! c with
             | Some name => if String.eqb name "" then c else name
             | None => c
             end)) /\
  TranslateCodes ["eng"; "xyz"] {[ "eng" := "English" ]} = ["English"; "xyz"].
Proof.
  split; [|split].
  - rewrite TranslateCodes_map. apply length_map.
  - intros i c H. rewrite (TranslateCodes_lookup _ _ _ _ H).
    destruct (codeMap !! c) as [name|]; simpl; [|reflexivity].
    now destruct (String.eqb name "").
  - reflexivity.
Qed.

Lemma TranslateCodes_one_per_code_witness :
  TranslateCodes ["fre"; "zzz"] {[ "fre" := "French" ]} !! 0%nat = Some "French".
Proof.
  exact (proj1 (proj2 (TranslateCodes_one_per_code ["fre"; "zzz"] {[ "fre" := "French" ]}))
           0%nat "fre" eq_refl).
Defined.

(** C7 as stated fails: the code "eng" is found in the table, its label is
    the empty string, and the output is the code, not the label. *)
Lemma TranslateCodes_found_empty_label :
  ({[ "eng" := "" ]} : gmap string string) !! "eng" = Some "" /\
  TranslateCodes ["eng"] {[ "eng" := "" ]} = ["eng"] /\
  TranslateCodes ["eng"] {[ "eng" := "" ]} <> [""].
Proof. split; [reflexivity|]. split; [reflexivity | discriminate]. Qed.

(** C10.  An entry whose label is the empty string counts for nothing: the
    table with the entry [c := ""] translates every list as the table
    without an entry for [c] does, a code with such an entry is passed
    through, and an output is the empty string only where the input code
    is. *)
Theorem TranslateCodes_empty_label (recordCodes : list string)
    (codeMap : gmap string string) (c : string) :
  TranslateCodes recordCodes (<[c := ""]> codeMap) =
    TranslateCodes recordCodes (delete c codeMap) /\
  (forall i c', recordCodes !! i = Some c' -> codeMap !! c' = Some "" ->
     TranslateCodes recordCodes codeMap !! i = Some c') /\
  (forall i, TranslateCodes recordCodes codeMap !! i = Some "" ->
     recordCodes !! i = Some "").
Proof.
  split; [|split].
  - rewrite !TranslateCodes_map. apply map_ext. intros c'.
    destruct (decide (c = c')) as [->|Hne].
    + now rewrite lookup_insert_eq, lookup_delete_eq.
    + now rewrite lookup_insert_ne, lookup_delete_ne.
  - intros i c' H Hc. rewrite (TranslateCodes_lookup _ _ _ _ H), Hc. reflexivity.
  - intros i. rewrite TranslateCodes_map, list_lookup_fmap.
    destruct (recordCodes !! i) as [c'|]; simpl; [|discriminate].
    intros [= H]. f_equal.
    destruct (String.eqb (default "" (codeMap !! c')) "") eqn:E; simpl in H.
    + exact H.
    + rewrite H in E. discriminate E.
Qed.

Lemma TranslateCodes_empty_label_witness :
  TranslateCodes ["eng"; ""] {[ "eng" := "" ]} !! 0%nat = Some "eng" /\
  ["eng"; ""] !! 1%nat = Some "".
Proof.
  destruct (TranslateCodes_empty_label ["eng"; ""] {[ "eng" := "" ]} "eng")
    as (_ & H2 & H3).
  split.
  - apply H2; reflexivity.
  - apply H3. reflexivity.
Defined.

(* ===================================================================== *)
(** * Links                                                               *)
(* ===================================================================== *)

Lemma string_of_byte_eqb (b : ascii) :
  String.eqb (string_of_byte b) "4" = Ascii.eqb b "4" /\
  String.eqb (string_of_byte b) "0" = Ascii.eqb b "0" /\
  String.eqb (string_of_byte b) "1" = Ascii.eqb b "1".
Proof. destruct b as [[] [] [] [] [] [] [] []]; repeat split; reflexivity. Qed.

Lemma subfieldValue_first (subs : list Fml.SubField.t) (code : string) :
  subfieldValue subs code = default "" (firstSubfield subs code).
Proof.
  unfold firstSubfield. induction subs as [|x subs IH]; simpl; [reflexivity|].
  destruct (String.eqb (Fml.SubField.Code x) code); [reflexivity | exact IH].
Qed.

(** C8.  The links of a record are the links of its qualifying "856"
    fields, one per field and in the order of the fields: a field
    qualifies when its first indicator is 4 and its second is 0 or 1, and
    its link takes kind, URL, text and restriction note from the subfields
    3, u, y and z, with the kind "unknown" when subfield 3 is absent or
    empty. *)
Theorem getLinks_qualifying (fmlRecord : Fml.fmlRecord) :
  getLinks fmlRecord = map linkOf (List.filter qualifies (Fml.DataField fmlRecord "856")) /\
  length (getLinks fmlRecord) =
    length (List.filter qualifies (Fml.DataField fmlRecord "856")).
Proof.
  assert (E : getLinks fmlRecord =
              map linkOf (List.filter qualifies (Fml.DataField fmlRecord "856"))).
  { unfold getLinks. destruct (Fml.DataField fmlRecord "856") as [|f0 fs] eqn:E856;
      [reflexivity|].
    change (Nat.eqb (length (f0 :: fs)) 0) with false. cbv iota.
    generalize (f0 :: fs). intros l.
    rewrite (foldl_appending _ (fun f => if qualifies f then [linkOf f] else [])).
    - rewrite app_nil_l.
      induction l as [|f l IH]; simpl; [reflexivity|].
      destruct (qualifies f); simpl; now rewrite IH.
    - intros acc f. unfold qualifies.
      destruct (string_of_byte_eqb (Fml.DataField.Indicator1 f)) as (-> & _ & _).
      destruct (string_of_byte_eqb (Fml.DataField.Indicator2 f)) as (_ & -> & ->).
      destruct (_ && _); [|now rewrite app_nil_r].
      do 2 f_equal. unfold linkOf. cbn [Link.Kind Link.URL Link.Text Link.Restrictions].
      rewrite !subfieldValue_first.
      destruct (firstSubfield (Fml.DataField.SubFields f) "3") as [k|]; simpl;
        [destruct (String.eqb k "")|]; reflexivity. }
  split; [exact E|]. rewrite E. apply length_map.
Qed.

(** The end-to-end example of the specification: a title field and one
    "856" field with the indicators 4 and 0 and the subfield u. *)
Example linkRecord_mapped (TrimSpace : string -> string) :
  exists r, marcToRecord TrimSpace linkRecord exampleRules ∅ ∅ = Returns (r, None) /\
    Rec.Title r = "Title" /\
    Rec.Links r = [ {| Link.Kind := "unknown"; Link.Text := "";
                       Link.URL := "http://x"; Link.Restrictions := "" |} ].
Proof. eexists. split; [lazy; reflexivity|]. split; reflexivity. Qed.

(* ===================================================================== *)
(** * Extraction under one rule                                           *)
(* ===================================================================== *)

Lemma stringInSlice_elem (a : string) (l : list string) :
  stringInSlice a l = true <-> a ∈ l.
Proof.
  induction l as [|b l IH]; simpl.
  - split; [discriminate | intros H; inversion H].
  - destruct (String.eqb b a) eqn:E.
    + apply String.eqb_eq in E as ->. split; [intros _; left | reflexivity].
    + apply String.eqb_neq in E. rewrite IH, elem_of_cons.
      split; [now right | intros [H|H]; [congruence | exact H]].
Qed.

Lemma stringInSlice_not_elem (a : string) (l : list string) :
  stringInSlice a l = false <-> a ∉ l.
Proof.
  rewrite <- stringInSlice_elem. destruct (stringInSlice a l).
  - split; [discriminate | intros H; now destruct H].
  - split; [intros _; discriminate | reflexivity].
Qed.

Lemma appendNew_snoc (l : list string) (y : string) (acc : list string) :
  appendNew (l ++ [y]) acc =
    if stringInSlice y (appendNew l acc) then appendNew l acc else appendNew l acc ++ [y].
Proof.
  unfold appendNew. rewrite foldl_app. simpl.
  now destruct (stringInSlice y _).
Qed.

Lemma appendNew_app (l k acc : list string) :
  appendNew (l ++ k) acc = appendNew k (appendNew l acc).
Proof. unfold appendNew. apply foldl_app. Qed.

Section FirstIndex.

Implicit Types (x y : string) (l k : list string).

Lemma firstIndex_lt x l a : firstIndex x l = Some a -> a < length l.
Proof.
  revert a. induction l as [|y l IH]; intros a; simpl; [discriminate|].
  destruct (String.eqb y x).
  - intros [= <-]. lia.
  - destruct (firstIndex x l) as [b|]; simpl; [|discriminate].
    intros [= <-]. specialize (IH b eq_refl). lia.
Qed.

Lemma firstIndex_app_l x l k a :
  firstIndex x l = Some a -> firstIndex x (l ++ k) = Some a.
Proof.
  revert a. induction l as [|y l IH]; intros a; simpl; [discriminate|].
  destruct (String.eqb y x); [trivial|].
  destruct (firstIndex x l) as [b|]; simpl; [|discriminate].
  intros [= <-]. now rewrite (IH b eq_refl).
Qed.

Lemma firstIndex_elem x l : x ∈ l -> exists a, firstIndex x l = Some a.
Proof.
  induction l as [|y l IH]; simpl; [intros H; inversion H|].
  destruct (String.eqb y x) eqn:E; [eauto|].
  apply String.eqb_neq in E. rewrite elem_of_cons.
  intros [->|H]; [congruence|]. destruct (IH H) as [a ->]. simpl. eauto.
Qed.

Lemma firstIndex_fresh x l : x ∉ l -> firstIndex x (l ++ [x]) = Some (length l).
Proof.
  induction l as [|y l IH]; simpl.
  - now rewrite String.eqb_refl.
  - rewrite not_elem_of_cons. intros [Hne H].
    apply not_eq_sym, String.eqb_neq in Hne. rewrite Hne, (IH H). reflexivity.
Qed.

End FirstIndex.

(** The values a loop over [l] collects from the empty slice: no value
    twice, the values of [l], each at the rank of its first occurrence. *)
Lemma appendNew_first_occurrences (l : list string) :
  NoDup (appendNew l []) /\
  (forall x, x ∈ appendNew l [] <-> x ∈ l) /\
  (forall i j x y, appendNew l [] !! i = Some x -> appendNew l [] !! j = Some y -> i < j ->
     exists a b, firstIndex x l = Some a /\ firstIndex y l = Some b /\ a < b).
Proof.
  induction l as [|z l (IHnd & IHin & IHord)] using rev_ind.
  - split; [constructor|]. split; [reflexivity|]. intros i j x y H. destruct i; discriminate H.
  - rewrite appendNew_snoc. destruct (stringInSlice z (appendNew l [])) eqn:E.
    + apply stringInSlice_elem in E. split; [exact IHnd|]. split.
      * intros x. rewrite elem_of_app, IHin, list_elem_of_singleton.
        apply IHin in E. split; [now left | intros [H| ->]; assumption].
      * intros i j x y Hi Hj Hij. destruct (IHord i j x y Hi Hj Hij) as (a & b & Ha & Hb & Hab).
        exists a, b. eauto using firstIndex_app_l.
    + apply stringInSlice_not_elem in E. split; [|split].
      * apply NoDup_app. split; [exact IHnd|]. split; [|apply NoDup_singleton].
        intros x Hx. rewrite list_elem_of_singleton. intros ->. contradiction.
      * intros x. rewrite !elem_of_app, IHin. reflexivity.
      * intros i j x y Hi Hj Hij.
        assert (Hil : i < length (appendNew l [])).
        { apply lookup_lt_Some in Hj. rewrite length_app in Hj. simpl in Hj. lia. }
        rewrite lookup_app_l in Hi by exact Hil.
        destruct (decide (j < length (appendNew l []))) as [Hjl|Hjl].
        -- rewrite lookup_app_l in Hj by exact Hjl.
           destruct (IHord i j x y Hi Hj Hij) as (a & b & Ha & Hb & Hab).
           exists a, b. eauto using firstIndex_app_l.
        -- rewrite lookup_app_r in Hj by lia.
           destruct (j - length (appendNew l [])) as [|n] eqn:En; [|destruct n; discriminate Hj].
           simpl in Hj. injection Hj as <-.
           assert (Hx : x ∈ l) by (apply IHin; eapply list_elem_of_lookup_2; exact Hi).
           destruct (firstIndex_elem _ _ Hx) as [a Ha].
           exists a, (length l). split; [now apply firstIndex_app_l|].
           split; [apply firstIndex_fresh; now rewrite <- IHin|].
           eapply firstIndex_lt; exact Ha.
Qed.

(** When every field specification of the rule is extracted without a
    panic, [extractData] returns what the two loops collect. *)
Lemma extractData_returns (rule : Rule.t) (fmlRecord : Fml.fmlRecord)
    (vss : list (list string)) :
  mapM (filter fmlRecord) (Rule.Fields rule) = Returns vss ->
  extractData (Some rule) fmlRecord = Returns (appendNew (concat vss) []).
Proof.
  unfold extractData. generalize (@nil string) as acc. revert vss.
  induction (Rule.Fields rule) as [|r rs IH]; intros vss acc; simpl.
  - now intros [= <-].
  - intros H. apply bind_Returns in H as (v & Hv & H).
    apply bind_Returns in H as (vs & Hvs & [= <-]).
    rewrite Hv. simpl. rewrite (IH _ _ Hvs). simpl. now rewrite appendNew_app.
Qed.

(** C4.  The values of the field specifications of a rule are unioned in
    the order of the specifications, without duplicates and each at the
    rank of its first occurrence: the result has no value twice, has the
    values the specifications yield and no other, and lists them in the
    order of their first occurrences; specifications yielding "a", "b",
    "a" give "a", "b". *)
Theorem extractData_dedup (rule : Rule.t) (fmlRecord : Fml.fmlRecord)
    (vss : list (list string)) :
  mapM (filter fmlRecord) (Rule.Fields rule) = Returns vss ->
  exists res, extractData (Some rule) fmlRecord = Returns res /\
    NoDup res /\
    (forall x, x ∈ res <-> x ∈ concat vss) /\
    (forall i j x y, res !! i = Some x -> res !! j = Some y -> i < j ->
       exists a b, firstIndex x (concat vss) = Some a /\
                   firstIndex y (concat vss) = Some b /\ a < b) /\
    (concat vss = ["a"; "b"; "a"] -> res = ["a"; "b"]).
Proof.
  intros H. exists (appendNew (concat vss) []).
  split; [now apply extractData_returns|].
  destruct (appendNew_first_occurrences (concat vss)) as (Hnd & Hin & Hord).
  repeat split; try assumption; try apply Hin.
  now intros ->.
Qed.

Lemma extractData_dedup_witness :
  extractData (getRules exampleRules "subjects") exampleRecord = Returns ["a"; "b"].
Proof.
  destruct (extractData_dedup
              (rule "subjects" [fieldSpec "650" "a" ""; fieldSpec "651" "a" ""])
              exampleRecord [["a"; "b"]; ["a"]] eq_refl)
    as (res & Hres & _ & _ & _ & Hex).
  rewrite (Hex eq_refl) in Hres. exact Hres.
Defined.

(* ===================================================================== *)
(** * Byte ranges                                                         *)
(* ===================================================================== *)

Section IntArithmetic.

Local Open Scope Z_scope.

Lemma parseUint_range (s : string) (n m : Z) :
  0 <= n < 2 ^ 64 -> parseUint s n = inl m -> 0 <= m < 2 ^ 64.
Proof.
  revert n. induction s as [|c s IH]; intros n Hn; simpl.
  - intros [= <-]. exact Hn.
  - unfold digit. destruct (_ && _) eqn:Ed; [|discriminate].
    apply andb_true_iff in Ed as [Hlo Hhi]. apply Z.leb_le in Hlo, Hhi.
    destruct (2 ^ 64 <=? _) eqn:E; [discriminate|]. apply Z.leb_gt in E.
    apply IH. lia.
Qed.

Lemma ParseUint_range (s : string) : 0 <= fst (ParseUint s) < 2 ^ 64.
Proof.
  unfold ParseUint. destruct s as [|c s]; [simpl; lia|].
  destruct (parseUint (String c s) 0) as [n|[]] eqn:E; simpl; try lia.
  eapply parseUint_range; [|exact E]. lia.
Qed.

(** The value of [Atoi] is an [int], whatever the string. *)
Lemma Atoi_range (s : string) : minInt <= fst (Atoi s) <= maxInt.
Proof.
  unfold minInt, maxInt, Atoi, ParseInt. destruct s as [|c s]; [simpl; lia|].
  cbv zeta. match goal with |- context [ParseUint ?b] => set (body := b) end.
  pose proof (ParseUint_range body) as Hr.
  destruct (ParseUint body) as [un [[]|]]; simpl in Hr |- *; try lia;
    destruct (Ascii.eqb c "-"); simpl;
    repeat match goal with
           | |- context [?a <=? ?b] => destruct (Z.leb_spec a b); simpl
           | |- context [?a <? ?b] => destruct (Z.ltb_spec a b); simpl
           end; lia.
Qed.

(** A syntax error of [Atoi] comes with the value 0. *)
Lemma Atoi_syntax_zero (s : string) :
  snd (Atoi s) = Some ErrSyntax -> fst (Atoi s) = 0.
Proof.
  unfold Atoi, ParseInt. destruct s as [|c s]; [reflexivity|].
  cbv zeta. match goal with |- context [ParseUint ?b] => set (body := b) end.
  destruct (ParseUint body) as [un [[]|]]; simpl; try reflexivity;
    destruct (Ascii.eqb c "-"); simpl;
    repeat match goal with
           | |- context [?a <=? ?b] => destruct (Z.leb_spec a b); simpl
           | |- context [?a <? ?b] => destruct (Z.ltb_spec a b); simpl
           end; discriminate.
Qed.

Lemma add_cases (a b : Z) :
  - 2 ^ 63 <= a <= 2 ^ 63 - 1 -> - 2 ^ 63 <= b <= 2 ^ 63 - 1 ->
  (a + b < 2 ^ 63 -> - 2 ^ 63 <= a + b -> add a b = a + b) /\
  (2 ^ 63 <= a + b -> add a b = a + b - 2 ^ 64) /\
  (a + b < - 2 ^ 63 -> add a b = a + b + 2 ^ 64).
Proof.
  intros Ha Hb. unfold add, wrap.
  change (2 ^ 63) with 9223372036854775808 in *.
  change (2 ^ 64) with 18446744073709551616 in *.
  repeat split; intros; Z.div_mod_to_equations; lia.
Qed.

End IntArithmetic.

Lemma length_substring (n m : nat) (s : string) :
  n + m <= String.length s -> String.length (substring n m s) = m.
Proof.
  revert n m. induction s as [|c s IH]; intros n m; simpl.
  - intros H. assert (n = 0 /\ m = 0) as [-> ->] by lia. reflexivity.
  - destruct n as [|n]; [destruct m as [|m]|]; simpl; intros H.
    + reflexivity.
    + f_equal. apply IH. lia.
    + apply IH. lia.
Qed.

Section ByteRange.

Variables (Bytes f0 f1 : string) (rest : list string).
Hypothesis Bytes_given : Bytes <> "".
Hypothesis Bytes_split : Split Bytes ":" = f0 :: f1 :: rest.

Let first : Z := fst (Atoi f0).
Let take : Z := fst (Atoi f1).

Lemma byteRange_slice (v : string) :
  byteRange Bytes v = slice v first (add first take).
Proof.
  unfold byteRange. apply String.eqb_neq in Bytes_given. rewrite Bytes_given.
  rewrite Bytes_split. reflexivity.
Qed.

Lemma byteRange_short (v : string) :
  (len v < first + take)%Z -> byteRange Bytes v = Panics SliceBounds.
Proof.
  intros Hshort. rewrite byteRange_slice. unfold slice.
  pose proof (Atoi_range f0) as H0. pose proof (Atoi_range f1) as H1.
  unfold minInt, maxInt in H0, H1.
  fold first in H0. fold take in H1.
  destruct (add_cases first take H0 H1) as (Hin & Hover & Hunder).
  assert (Hlen : (0 <= len v)%Z) by (unfold len; lia).
  destruct (_ && _) eqn:E; [|reflexivity]. exfalso.
  apply andb_true_iff in E as [E E3]. apply andb_true_iff in E as [E1 E2].
  apply Z.leb_le in E1, E2, E3.
  destruct (Z_lt_le_dec (first + take) (2 ^ 63)) as [Hlt|Hge].
  - rewrite Hin in E3; lia.
  - rewrite (Hover Hge) in E2. lia.
Qed.

Lemma byteRange_returns (v s : string) :
  byteRange Bytes v = Returns s ->
  s = substring (Z.to_nat first) (Z.to_nat take) v /\ len s = take /\
  (0 <= first)%Z /\ (0 <= take)%Z /\ (first + take <= len v)%Z.
Proof.
  rewrite byteRange_slice. unfold slice.
  pose proof (Atoi_range f0) as H0. pose proof (Atoi_range f1) as H1.
  unfold minInt, maxInt in H0, H1.
  fold first in H0. fold take in H1.
  destruct (add_cases first take H0 H1) as (Hin & Hover & Hunder).
  destruct (_ && _) eqn:E; [|discriminate]. intros [= <-].
  apply andb_true_iff in E as [E E3]. apply andb_true_iff in E as [E1 E2].
  apply Z.leb_le in E1, E2, E3.
  assert (Hsum : add first take = (first + take)%Z).
  { destruct (Z_lt_le_dec (first + take) (2 ^ 63)) as [Hlt|Hge].
    - apply Hin; [exact Hlt|]. destruct (Z_lt_le_dec (first + take) (- 2 ^ 63)) as [Hu|]; [|lia].
      rewrite (Hunder Hu) in E2. lia.
    - rewrite (Hover Hge) in E2. lia. }
  rewrite Hsum in *. replace (first + take - first)%Z with take by lia.
  assert (Hlen : String.length (substring (Z.to_nat first) (Z.to_nat take) v) = Z.to_nat take).
  { apply length_substring. unfold len in E3. clear - E1 E2 E3. lia. }
  unfold len. rewrite Hlen. clear - E1 E2 E3. unfold len in E3. repeat split; lia.
Qed.

Lemma byteRange_outcome (v : string) :
  byteRange Bytes v = Panics SliceBounds \/ exists s, byteRange Bytes v = Returns s.
Proof.
  rewrite byteRange_slice. unfold slice. destruct (_ && _); eauto.
Qed.

End ByteRange.

Section FilterLoop.

Variables (Bytes f0 f1 : string) (rest : list string).
Hypothesis Bytes_given : Bytes <> "".
Hypothesis Bytes_split : Split Bytes ":" = f0 :: f1 :: rest.

Let first : Z := fst (Atoi f0).
Let take : Z := fst (Atoi f1).

(** The loop of [filter] over the occurrences [values]. *)
Let loop (values : list (list string)) (stuff : list string) : result (list string) :=
  forRange values (fun f stuff => v ← byteRange Bytes (Join f " ");
                                  Returns (stuff ++ [v])) stuff.

Lemma filter_loop_short (values : list (list string)) (stuff : list string) (f : list string) :
  f ∈ values -> (len (Join f " ") < first + take)%Z ->
  loop values stuff = Panics SliceBounds.
Proof.
  intros Hf Hshort. revert stuff.
  induction values as [|g gs IH]; intros stuff; [inversion Hf|].
  unfold loop. simpl.
  destruct (byteRange_outcome _ _ _ _ Bytes_given Bytes_split (Join g " ")) as [->|[s Hs]];
    [reflexivity|].
  rewrite Hs. simpl. apply elem_of_cons in Hf as [->|Hf]; [|now apply IH].
  rewrite (byteRange_short _ _ _ _ Bytes_given Bytes_split _ Hshort) in Hs. discriminate Hs.
Qed.

Lemma filter_loop_returns (values : list (list string)) (stuff vs : list string) :
  loop values stuff = Returns vs ->
  exists ws, vs = stuff ++ ws /\
    ws = map (fun f => substring (Z.to_nat first) (Z.to_nat take) (Join f " ")) values /\
    Forall (fun v => len v = take) ws.
Proof.
  revert stuff. induction values as [|g gs IH]; intros stuff; unfold loop; simpl.
  - intros [= <-]. exists []. now rewrite app_nil_r.
  - destruct (byteRange Bytes (Join g " ")) as [s|p] eqn:Hs; simpl; [|discriminate].
    destruct (byteRange_returns _ _ _ _ Bytes_given Bytes_split _ _ Hs) as (Es & Hlen & _).
    intros H. apply IH in H as (ws & -> & -> & Hws).
    eexists. split; [now rewrite <- app_assoc|]. split; [now rewrite Es|].
    now constructor.
Qed.

End FilterLoop.


(* ===================================================================== *)
(** * What [marcToRecord] returns                                         *)
(* ===================================================================== *)

(** Going back through the binds of a run that returned. *)
Ltac returned_steps H :=
  repeat (let x := fresh "x" in
          let Hx := fresh "Hx" in
          apply bind_Returns in H as (x & Hx & H); cbv beta zeta in H).

(** A panic of the mapper ends the producer where it stands. *)
Lemma panic_ends_run (TrimSpace : string -> string) (m : marcparser)
    (v : Fml.value) (rest : list Fml.value) (out : list Rec.t) (p : panic) :
  Fml.err v = None ->
  marcToRecord TrimSpace (Fml.record v) (rules m) (languageCodes m) (countryCodes m) = Panics p ->
  parseLoop TrimSpace m (v :: rest) out = (out, Crashed p).
Proof. intros He Hp. simpl. now rewrite He, Hp. Qed.


(** A document [marcToRecord] returns has the first title value, and its
    holdings and formats are those of [recordHoldings]. *)
Lemma marcToRecord_document (TrimSpace : string -> string) (fmlRecord : Fml.fmlRecord)
    (rules : list Rule.t) (languageCodes countryCodes : gmap string string) (r : Rec.t) :
  marcToRecord TrimSpace fmlRecord rules languageCodes countryCodes = Returns (r, None) ->
  (exists titles, applyRule fmlRecord rules "title" = Returns (Rec.Title r :: titles)) /\
  recordHoldings fmlRecord = Returns (Rec.Holdings r) /\
  Rec.Format r = holdingFormats (Rec.Holdings r) [] /\
  Rec.Links r = getLinks fmlRecord.
Proof.
  unfold marcToRecord. cbv zeta. intros H.
  apply bind_Returns in H as (oclc & Hoclc & H).
  apply bind_Returns in H as (lccn & Hlccn & H).
  apply bind_Returns in H as (title & Htitle & H).
  destruct title as [|title0 titles]; [discriminate H|].
  returned_steps H. injection H as <-. simpl.
  repeat split; eauto.
Qed.

(* ===================================================================== *)
(** * Holdings                                                            *)
(* ===================================================================== *)

(** A [range] loop whose body never panics and appends one element. *)
Lemma forRange_map {A B} (body : A -> list B -> result (list B)) (g : A -> B) :
  (forall x acc, body x acc = Returns (acc ++ [g x])) ->
  forall l acc, forRange l body acc = Returns (acc ++ map g l).
Proof.
  intros Hb l. induction l as [|x l IH]; intros acc; simpl.
  - now rewrite app_nil_r.
  - rewrite Hb, IH. now rewrite <- app_assoc.
Qed.

Lemma getHoldings_866 (fmlRecord : Fml.fmlRecord) :
  getHoldings fmlRecord "866" ["b"; "c"; "h"; "a"; "z"] =
    Returns (map holding866 (Fml.DataField fmlRecord "866")).
Proof.
  unfold getHoldings. destruct (Fml.DataField fmlRecord "866") as [|f fs]; [reflexivity|].
  change (Nat.eqb (length (f :: fs)) 0) with false. cbv iota.
  now rewrite (forRange_map _ holding866).
Qed.

Lemma getHoldings_852 (fmlRecord : Fml.fmlRecord) :
  getHoldings fmlRecord "852" ["b"; "c"; "h"; "a"; "z"; "k"] =
    Returns (map holding852 (Fml.DataField fmlRecord "852")).
Proof.
  unfold getHoldings. destruct (Fml.DataField fmlRecord "852") as [|f fs]; [reflexivity|].
  change (Nat.eqb (length (f :: fs)) 0) with false. cbv iota.
  now rewrite (forRange_map _ holding852).
Qed.

(** [recordHoldings] never panics. *)
Lemma recordHoldings_value (fmlRecord : Fml.fmlRecord) :
  recordHoldings fmlRecord =
    Returns (match map holding866 (Fml.DataField fmlRecord "866") with
             | [] => map holding852 (Fml.DataField fmlRecord "852")
             | h :: hs => h :: hs
             end).
Proof.
  unfold recordHoldings. rewrite getHoldings_866. simpl.
  destruct (map holding866 (Fml.DataField fmlRecord "866")); simpl;
    [apply getHoldings_852 | reflexivity].
Qed.

(** C5.  The holdings of a record are the holdings of its "866" fields
    when there is at least one, and the holdings of its "852" fields
    exactly when "866" yields none.  With a holding from "866" the "852"
    fields are not looked at: a record that differs only in them has the
    same holdings.  These are the holdings of the document that
    [marcToRecord] returns. *)
Theorem holdings_fallback (fmlRecord : Fml.fmlRecord) :
  let primary := map holding866 (Fml.DataField fmlRecord "866") in
  let fallback := map holding852 (Fml.DataField fmlRecord "852") in
  getHoldings fmlRecord "866" ["b"; "c"; "h"; "a"; "z"] = Returns primary /\
  getHoldings fmlRecord "852" ["b"; "c"; "h"; "a"; "z"; "k"] = Returns fallback /\
  (primary = [] -> recordHoldings fmlRecord = Returns fallback) /\
  (primary <> [] ->
     recordHoldings fmlRecord = Returns primary /\
     forall other : Fml.fmlRecord,
       Fml.DataField other "866" = Fml.DataField fmlRecord "866" ->
       recordHoldings other = Returns primary) /\
  (forall TrimSpace rules languageCodes countryCodes r,
     marcToRecord TrimSpace fmlRecord rules languageCodes countryCodes = Returns (r, None) ->
     Rec.Holdings r = match primary with [] => fallback | _ => primary end).
Proof.
  intros primary fallback.
  pose proof recordHoldings_value as Hany.
  split; [apply getHoldings_866|]. split; [apply getHoldings_852|].
  split; [|split].
  - intros E. rewrite Hany. fold primary. now rewrite E.
  - intros Hne. split.
    + rewrite Hany. fold primary. now destruct primary.
    + intros other E. rewrite Hany, E. fold primary. now destruct primary.
  - intros TrimSpace rules lc cc r H.
    apply marcToRecord_document in H as (_ & H & _).
    rewrite Hany in H. injection H as <-. fold primary fallback. now destruct primary.
Qed.

Lemma holdings_fallback_witness :
  recordHoldings exampleRecord = Returns [holding866 (datafield "866" " " " "
                                            [subfield "b" "SCI"; subfield "a" "v.1-3"])] /\
  recordHoldings shortRecord = Returns [].
Proof.
  split.
  - destruct (holdings_fallback exampleRecord) as (_ & _ & _ & Hprimary & _).
    refine (proj1 (Hprimary _)). discriminate.
  - destruct (holdings_fallback shortRecord) as (_ & _ & Hfallback & _).
    apply Hfallback. reflexivity.
Defined.

(* ===================================================================== *)
(** * Lookups and extractions of the mapper                               *)
(* ===================================================================== *)

Section RuleLookup.

Variables (fmlRecord : Fml.fmlRecord) (rules : list Rule.t).

(** Whether a loop over field specifications returns depends on [filter]
    alone, not on what the body does with the values. *)
Lemma forRange_filter_returned {S T} (fields : list Field.t)
    (k1 : Field.t -> list string -> S -> S) (k2 : Field.t -> list string -> T -> T)
    (s : S) (t : T) :
  returned (forRange fields (fun r acc => f ← filter fmlRecord r; Returns (k1 r f acc)) s) =
  returned (forRange fields (fun r acc => f ← filter fmlRecord r; Returns (k2 r f acc)) t).
Proof.
  revert s t. induction fields as [|r rs IH]; intros s t; simpl; [reflexivity|].
  destruct (filter fmlRecord r); simpl; [apply IH | reflexivity].
Qed.

Lemma getContributors_returned (label : string) :
  returned (getContributors fmlRecord rules label) = returned (applyRule fmlRecord rules label).
Proof.
  unfold getContributors, applyRule, extractData.
  destruct (getRules rules label) as [rule|]; [|reflexivity].
  apply (forRange_filter_returned _
           (fun r Value c => match Value with
                             | [] => c
                             | _ => c ++ [{| Contributor.Kind := Field.Kind r;
                                             Contributor.Value := Value |}]
                             end)
           (fun _ f field => appendNew f field)).
Qed.

Lemma getRelatedItems_returned (label : string) :
  returned (getRelatedItems fmlRecord rules label) = returned (applyRule fmlRecord rules label).
Proof.
  unfold getRelatedItems, applyRule, extractData.
  destruct (getRules rules label) as [rule|]; [|reflexivity].
  apply (forRange_filter_returned _
           (fun r Value c => match Value with
                             | [] => c
                             | _ => c ++ [{| RelatedItem.Kind := Field.Kind r;
                                             RelatedItem.Value := Value |}]
                             end)
           (fun _ f field => appendNew f field)).
Qed.

Lemma appendNew_nil (f field : list string) :
  appendNew f field = [] -> f = [] /\ field = [].
Proof.
  revert field. induction f as [|y f IH]; intros field; simpl; [auto|].
  intros H. apply IH in H as [_ H]. exfalso.
  destruct (stringInSlice y field) eqn:E; simpl in H.
  - subst field. discriminate E.
  - now destruct field.
Qed.




(** A field specification whose extraction panics makes the rule's
    extraction panic. *)
Lemma forRange_filter_panics {S} (fields : list Field.t)
    (k : Field.t -> list string -> S -> S) (s : S) (field : Field.t) :
  field ∈ fields -> returned (filter fmlRecord field) = false ->
  returned (forRange fields (fun r acc => f ← filter fmlRecord r; Returns (k r f acc)) s)
    = false.
Proof.
  intros Hin Hp. revert s. induction fields as [|r rs IH]; intros s; [inversion Hin|].
  simpl. apply elem_of_cons in Hin as [<-|Hin].
  - destruct (filter fmlRecord field); [discriminate Hp | reflexivity].
  - destruct (filter fmlRecord r); simpl; [now apply IH | reflexivity].
Qed.

Lemma applyRule_panics (label : string) (rule : Rule.t) (field : Field.t) :
  getRules rules label = Some rule -> field ∈ Rule.Fields rule ->
  returned (filter fmlRecord field) = false ->
  returned (applyRule fmlRecord rules label) = false.
Proof.
  intros Hrule Hin Hp. unfold applyRule, extractData. rewrite Hrule.
  exact (forRange_filter_panics _ (fun _ f acc => appendNew f acc) [] field Hin Hp).
Qed.

End RuleLookup.


(** If an extraction the mapper makes on the record panics, the record is
    not mapped to a document. *)
Lemma unextractable_label (TrimSpace : string -> string) (fmlRecord : Fml.fmlRecord)
    (rules : list Rule.t) (label : string) :
  label ∈ mapperLabels ->
  returned (applyRule fmlRecord rules label) = false ->
  forall languageCodes countryCodes r,
    marcToRecord TrimSpace fmlRecord rules languageCodes countryCodes <> Returns (r, None).
Proof.
  intros Hlabel Hp lc cc r H.
  pose proof (getContributors_returned fmlRecord rules "contributors") as Hc.
  pose proof (getRelatedItems_returned fmlRecord rules "related_items") as Hr.
  unfold marcToRecord in H. cbv zeta in H.
  apply bind_Returns in H as (oclc & Hoclc & H).
  apply bind_Returns in H as (lccn & Hlccn & H).
  apply bind_Returns in H as (title & Htitle & H).
  destruct title as [|title0 titles]; [discriminate H|].
  returned_steps H.
  unfold mapperLabels in Hlabel.
  repeat (apply elem_of_cons in Hlabel as [->|Hlabel]);
    try (rewrite Hp in Hc); try (rewrite Hp in Hr);
    repeat match goal with
           | E : ?e = Returns _, F : context [returned ?e] |- _ => rewrite E in F
           end;
    try discriminate.
  inversion Hlabel.
Qed.

(* ===================================================================== *)
(** * Byte ranges that are out of range                                  *)
(* ===================================================================== *)

(** C3, as the code has it.  Let the byte range of a field specification
    split at its colons into at least two components, read by [Atoi] as
    [first] and [take].  If some occurrence of the field has a joined value
    shorter than [first + take], [filter] panics with "slice bounds out of
    range": it returns no error and no shortened value, and under a rule
    of the mapper with this specification the record is not mapped to a
    document.  A panic of [marcToRecord] ends the producer at that record.
    Whenever [filter] returns, every value is the full range, [take] bytes
    from offset [first].  A component that is no number is no error
    either: [Atoi] gives 0 for it and the error is dropped. *)
Theorem filter_byte_range (fmlRecord : Fml.fmlRecord) (field : Field.t)
    (f0 f1 : string) (rest : list string) :
  Field.Bytes field <> "" ->
  Split (Field.Bytes field) ":" = f0 :: f1 :: rest ->
  let first := fst (Atoi f0) in
  let take := fst (Atoi f1) in
  let values := Fml.Filter fmlRecord (Field.Tag field +:+ Field.Subfields field) in
  ((exists f, f ∈ values /\ (len (Join f " ") < first + take)%Z) ->
     filter fmlRecord field = Panics SliceBounds /\
     forall TrimSpace rules label rule languageCodes countryCodes r,
       label ∈ mapperLabels -> getRules rules label = Some rule ->
       field ∈ Rule.Fields rule ->
       marcToRecord TrimSpace fmlRecord rules languageCodes countryCodes <> Returns (r, None)) /\
  (forall TrimSpace stream rules languageCodes countryCodes records out p,
     marcToRecord TrimSpace fmlRecord rules languageCodes countryCodes = Panics p ->
     parseLoop TrimSpace (parserOf stream rules languageCodes countryCodes)
               (decoded fmlRecord :: records) out = (out, Crashed p)) /\
  (forall vs, filter fmlRecord field = Returns vs ->
     vs = map (fun f => substring (Z.to_nat first) (Z.to_nat take) (Join f " ")) values /\
     Forall (fun v => len v = take) vs) /\
  (snd (Atoi f0) = Some ErrSyntax -> first = 0%Z) /\
  (snd (Atoi f1) = Some ErrSyntax -> take = 0%Z).
Proof.
  intros Hgiven Hsplit first take values.
  split; [|split; [|split; [|split; apply Atoi_syntax_zero]]].
  - intros (f & Hf & Hshort).
    assert (Hp : filter fmlRecord field = Panics SliceBounds)
      by exact (filter_loop_short _ _ _ _ Hgiven Hsplit values [] f Hf Hshort).
    split; [exact Hp|].
    intros TrimSpace rules label rule lc cc r Hlabel Hrule Hin.
    apply (unextractable_label TrimSpace fmlRecord rules label Hlabel).
    apply (applyRule_panics fmlRecord rules label rule field Hrule Hin).
    now rewrite Hp.
  - intros TrimSpace stream rules lc cc records out p Hp.
    now apply panic_ends_run.
  - intros vs H.
    destruct (filter_loop_returns _ _ _ _ Hgiven Hsplit values [] vs H) as (ws & -> & -> & Hws).
    split; [reflexivity | exact Hws].
Qed.

Lemma filter_byte_range_witness :
  filter exampleRecord (fieldSpec "245" "a" "3:7") = Panics SliceBounds /\
  filter exampleRecord (fieldSpec "245" "a" "1:3") = Returns ["itl"].
Proof.
  pose proof (filter_byte_range exampleRecord (fieldSpec "245" "a" "3:7") "3" "7" []) as H.
  assert (Hgiven : Field.Bytes (fieldSpec "245" "a" "3:7") <> "") by discriminate.
  destruct (H Hgiven eq_refl) as (Hshort & _).
  split.
  - apply Hshort. exists ["Title"]. split; [left | reflexivity].
  - reflexivity.
Defined.

(** C3 as stated fails.  The title of the record is one byte long and the
    rule of the publication date takes the bytes 1..3 of it: [filter]
    panics, [marcToRecord] returns no error but panics, and the run ends
    there, before the next record; and a range whose start is no number
    raises nothing, it is read as 0. *)
Lemma out_of_range_ends_run :
  filter shortRecord (fieldSpec "245" "a" "1:3") = Panics SliceBounds /\
  marcToRecord TrimSpaceASCII shortRecord exampleRules ∅ ∅ = Panics SliceBounds /\
  Generate TrimSpaceASCII [decoded shortRecord; decoded exampleRecord] exampleRules ∅ ∅ =
    ([], Crashed SliceBounds) /\
  filter exampleRecord (fieldSpec "245" "a" "x:2") = Returns ["Ti"].
Proof. repeat split; vm_compute; reflexivity. Qed.

(* ===================================================================== *)
(** * The title                                                          *)
(* ===================================================================== *)



(* ===================================================================== *)
(** * Rules that are missing                                             *)
(* ===================================================================== *)




(* ===================================================================== *)
(** * Further properties: rules and extraction                            *)
(* ===================================================================== *)

(** X1.  [getRules] finds the first rule with the label: the rules before
    it have other labels, and it finds nothing exactly when no rule has
    the label. *)
Theorem getRules_first (rules : list Rule.t) (label : string) :
  match getRules rules label with
  | Some r => exists pre post, rules = pre ++ r :: post /\ Rule.Label r = label /\
                Forall (fun r' => Rule.Label r' <> label) pre
  | None => Forall (fun r' => Rule.Label r' <> label) rules
  end.
Proof.
  induction rules as [|v rest IH]; simpl; [constructor|].
  destruct (String.eqb (Rule.Label v) label) eqn:E.
  - apply String.eqb_eq in E. exists [], rest. repeat split; [exact E | constructor].
  - apply String.eqb_neq in E. destruct (getRules rest label) as [r|].
    + destruct IH as (pre & post & -> & Hr & Hpre).
      exists (v :: pre), post. repeat split; [exact Hr | now constructor].
    + now constructor.
Qed.

(** X2.  A rule none of whose field specifications occurs in the record
    yields the empty result, not a panic, whatever the byte ranges of the
    specifications are. *)
Theorem applyRule_no_occurrence (fmlRecord : Fml.fmlRecord) (rules : list Rule.t)
    (label : string) (rule : Rule.t) :
  getRules rules label = Some rule ->
  Forall (fun field =>
            Fml.Filter fmlRecord (Field.Tag field +:+ Field.Subfields field) = [])
         (Rule.Fields rule) ->
  applyRule fmlRecord rules label = Returns [].
Proof.
  intros Hrule Hnone. unfold applyRule, extractData. rewrite Hrule.
  induction Hnone as [|field fields Hf _ IH]; simpl; [reflexivity|].
  unfold filter at 1. rewrite Hf. simpl. exact IH.
Qed.

Lemma applyRule_no_occurrence_witness :
  applyRule untitledRecord [rule "date" [fieldSpec "008" "" "zz"; fieldSpec "260" "c" "7:4"]]
    "date" = Returns [].
Proof.
  apply (applyRule_no_occurrence untitledRecord
           [rule "date" [fieldSpec "008" "" "zz"; fieldSpec "260" "c" "7:4"]] "date"
           (rule "date" [fieldSpec "008" "" "zz"; fieldSpec "260" "c" "7:4"]) eq_refl).
  repeat constructor.
Defined.

(** X3.  Without a byte range [filter] never panics: it returns one value
    per occurrence of the field, the subfield values joined by a space,
    in the order of the occurrences. *)
Theorem filter_no_range (fmlRecord : Fml.fmlRecord) (field : Field.t) :
  Field.Bytes field = "" ->
  filter fmlRecord field =
    Returns (map (fun f => Join f " ")
               (Fml.Filter fmlRecord (Field.Tag field +:+ Field.Subfields field))).
Proof.
  intros Hb. unfold filter.
  rewrite (forRange_map _ (fun f => Join f " ")); [reflexivity|].
  intros f acc. unfold byteRange. now rewrite Hb.
Qed.

Lemma filter_no_range_witness :
  filter exampleRecord (fieldSpec "245" "ab" "") = Returns ["Title sub"].
Proof. exact (filter_no_range exampleRecord (fieldSpec "245" "ab" "") eq_refl). Defined.

Lemma Split_no_sep (s : string) (sep : ascii) :
  Forall (fun c => c <> sep) (list_ascii_of_string s) -> Split s sep = [s].
Proof.
  induction s as [|c s IH]; simpl; [reflexivity|].
  intros H. inversion H as [|? ? Hc Hs]; subst.
  apply Ascii.eqb_neq in Hc. rewrite Hc, (IH Hs). reflexivity.
Qed.

(** X4.  A malformed byte range panics as soon as the field occurs: a
    range without a colon with "index out of range", and a range whose
    start or length [Atoi] reads as negative with "slice bounds out of
    range".  When the field does not occur, [filter] returns the empty
    result whatever the range is. *)
Theorem filter_malformed_range (fmlRecord : Fml.fmlRecord) (field : Field.t) :
  let values := Fml.Filter fmlRecord (Field.Tag field +:+ Field.Subfields field) in
  (values = [] -> filter fmlRecord field = Returns []) /\
  (values <> [] -> Field.Bytes field <> "" ->
   Forall (fun c => c <> ":"%char) (list_ascii_of_string (Field.Bytes field)) ->
   filter fmlRecord field = Panics IndexOutOfRange) /\
  (forall f0 f1 rest,
     values <> [] -> Field.Bytes field <> "" ->
     Split (Field.Bytes field) ":" = f0 :: f1 :: rest ->
     (fst (Atoi f0) < 0 \/ fst (Atoi f1) < 0)%Z ->
     filter fmlRecord field = Panics SliceBounds).
Proof.
  intros values. unfold filter. fold values. split; [|split].
  - now intros ->.
  - intros Hv Hb Hcolon. destruct values as [|f fs]; [contradiction|]. simpl.
    unfold byteRange. apply String.eqb_neq in Hb. rewrite Hb.
    rewrite (Split_no_sep _ _ Hcolon). reflexivity.
  - intros f0 f1 rest Hv Hb Hsplit Hneg. destruct values as [|f fs]; [contradiction|]. simpl.
    destruct (byteRange_outcome _ _ _ _ Hb Hsplit (Join f " ")) as [->|[s Hs]];
      [reflexivity|].
    apply (byteRange_returns _ _ _ _ Hb Hsplit) in Hs as (_ & _ & H0 & H1 & _). lia.
Qed.

Lemma filter_malformed_range_witness :
  filter exampleRecord (fieldSpec "245" "a" "7") = Panics IndexOutOfRange /\
  filter exampleRecord (fieldSpec "245" "a" "-1:2") = Panics SliceBounds.
Proof.
  split.
  - destruct (filter_malformed_range exampleRecord (fieldSpec "245" "a" "7")) as (_ & H & _).
    apply H; [discriminate | discriminate |].
    repeat constructor. discriminate.
  - destruct (filter_malformed_range exampleRecord (fieldSpec "245" "a" "-1:2")) as (_ & _ & H).
    apply (H "-1" "2" []); [discriminate | discriminate | reflexivity |].
    left. reflexivity.
Defined.

(** X5.  When every field specification of the rule is extracted without a
    panic, [getContributors] and [getRelatedItems] return one entry for
    each specification that has values, in the order of the
    specifications, with the kind of the specification and all its values;
    no entry has an empty value list. *)
Theorem contributors_per_field (fmlRecord : Fml.fmlRecord) (rules : list Rule.t)
    (label : string) (rule : Rule.t) (vss : list (list string)) :
  getRules rules label = Some rule ->
  mapM (filter fmlRecord) (Rule.Fields rule) = Returns vss ->
  getContributors fmlRecord rules label =
    Returns (entriesWithValues Contributor.Build_t (Rule.Fields rule) vss) /\
  getRelatedItems fmlRecord rules label =
    Returns (entriesWithValues RelatedItem.Build_t (Rule.Fields rule) vss) /\
  Forall (fun c => Contributor.Value c <> [])
         (entriesWithValues Contributor.Build_t (Rule.Fields rule) vss) /\
  Forall (fun c => RelatedItem.Value c <> [])
         (entriesWithValues RelatedItem.Build_t (Rule.Fields rule) vss).
Proof.
  intros Hrule Hvss. unfold getContributors, getRelatedItems. rewrite Hrule.
  assert (G : forall (c : list Contributor.t) (c' : list RelatedItem.t),
            forRange (Rule.Fields rule)
              (fun r c => Value ← filter fmlRecord r;
                 Returns (match Value with
                          | [] => c
                          | _ => c ++ [{| Contributor.Kind := Field.Kind r;
                                          Contributor.Value := Value |}]
                          end)) c
            = Returns (c ++ entriesWithValues Contributor.Build_t (Rule.Fields rule) vss) /\
            forRange (Rule.Fields rule)
              (fun r c => Value ← filter fmlRecord r;
                 Returns (match Value with
                          | [] => c
                          | _ => c ++ [{| RelatedItem.Kind := Field.Kind r;
                                          RelatedItem.Value := Value |}]
                          end)) c'
            = Returns (c' ++ entriesWithValues RelatedItem.Build_t (Rule.Fields rule) vss)).
  { revert vss Hvss. induction (Rule.Fields rule) as [|r rs IH]; intros vss Hvss c c'.
    - injection Hvss as <-. simpl. now rewrite !app_nil_r.
    - simpl in Hvss. apply bind_Returns in Hvss as (v & Hv & Hvss).
      apply bind_Returns in Hvss as (vs & Hvs & [= <-]).
      simpl. rewrite Hv. simpl.
      destruct (IH vs Hvs (match v with
                           | [] => c
                           | _ => c ++ [{| Contributor.Kind := Field.Kind r;
                                           Contributor.Value := v |}]
                           end)
                          (match v with
                           | [] => c'
                           | _ => c' ++ [{| RelatedItem.Kind := Field.Kind r;
                                            RelatedItem.Value := v |}]
                           end)) as [-> ->].
      unfold entriesWithValues. simpl. destruct v; simpl; rewrite <- ?app_assoc; split; reflexivity. }
  destruct (G [] []) as [-> ->]. simpl.
  split; [reflexivity|]. split; [reflexivity|].
  unfold entriesWithValues. split.
  - apply Forall_forall. intros c Hc. apply list_elem_of_omap in Hc as ([r v] & _ & Hc).
    simpl in Hc. destruct v; [discriminate|]. injection Hc as <-. discriminate.
  - apply Forall_forall. intros c Hc. apply list_elem_of_omap in Hc as ([r v] & _ & Hc).
    simpl in Hc. destruct v; [discriminate|]. injection Hc as <-. discriminate.
Qed.

Lemma contributors_per_field_witness :
  getContributors exampleRecord exampleRules "subjects" =
    Returns [ {| Contributor.Kind := ""; Contributor.Value := ["a"; "b"] |};
              {| Contributor.Kind := ""; Contributor.Value := ["a"] |} ].
Proof.
  exact (proj1 (contributors_per_field exampleRecord exampleRules "subjects"
                  (rule "subjects" [fieldSpec "650" "a" ""; fieldSpec "651" "a" ""])
                  [["a"; "b"]; ["a"]] eq_refl eq_refl)).
Defined.

(* ===================================================================== *)
(** * Further properties: holdings, formats and links                     *)
(* ===================================================================== *)

(** X6.  [getHoldings] reads five subfield codes, and a sixth unless the
    tag is "866".  Without a field with the tag it returns no holding,
    whatever the codes; with such a field and too few codes it panics with
    "index out of range"; with enough codes it returns one holding per
    field. *)
Theorem getHoldings_bounds (fmlRecord : Fml.fmlRecord) (tag : string)
    (subfieldCodes : list string) :
  (Fml.DataField fmlRecord tag = [] ->
     getHoldings fmlRecord tag subfieldCodes = Returns []) /\
  (Fml.DataField fmlRecord tag <> [] -> length subfieldCodes < codesNeeded tag ->
     getHoldings fmlRecord tag subfieldCodes = Panics IndexOutOfRange) /\
  (codesNeeded tag <= length subfieldCodes ->
     exists holdings, getHoldings fmlRecord tag subfieldCodes = Returns holdings /\
       length holdings = length (Fml.DataField fmlRecord tag)).
Proof.
  unfold getHoldings, codesNeeded. split; [|split].
  - now intros ->.
  - intros Hdf Hlen. destruct (Fml.DataField fmlRecord tag) as [|f fs]; [contradiction|].
    change (Nat.eqb (length (f :: fs)) 0) with false. cbv iota.
    destruct subfieldCodes as [|c0 [|c1 [|c2 [|c3 [|c4 [|c5 cs]]]]]]; try reflexivity.
    + simpl. destruct (String.eqb tag "866"); [simpl in Hlen; lia | reflexivity].
    + simpl in Hlen. destruct (String.eqb tag "866"); lia.
  - intros Hlen.
    destruct (Fml.DataField fmlRecord tag) as [|f fs] eqn:Edf; [now exists []|].
    change (Nat.eqb (length (f :: fs)) 0) with false. cbv iota.
    destruct subfieldCodes as [|c0 [|c1 [|c2 [|c3 [|c4 cs]]]]];
      try (simpl in Hlen; destruct (String.eqb tag "866"); lia).
    destruct (String.eqb tag "866") eqn:Etag.
    + eexists. split.
      * apply (forRange_map _ (fun f =>
          {| Holding.Location := lookupLocation (subfieldValue (Fml.DataField.SubFields f) c0);
             Holding.Collection := lookupCollection (subfieldValue (Fml.DataField.SubFields f) c1)
                                     (subfieldValue (Fml.DataField.SubFields f) c0);
             Holding.CallNumber := subfieldValue (Fml.DataField.SubFields f) c2;
             Holding.Summary := subfieldValue (Fml.DataField.SubFields f) c3;
             Holding.Notes := subfieldValue (Fml.DataField.SubFields f) c4;
             Holding.Format := "Print volume" |})).
        intros x acc. reflexivity.
      * simpl. now rewrite length_map.
    + destruct cs as [|c5 cs]; [simpl in Hlen; lia|].
      eexists. split.
      * apply (forRange_map _ (fun f =>
          {| Holding.Location := lookupLocation (subfieldValue (Fml.DataField.SubFields f) c0);
             Holding.Collection := lookupCollection (subfieldValue (Fml.DataField.SubFields f) c1)
                                     (subfieldValue (Fml.DataField.SubFields f) c0);
             Holding.CallNumber := subfieldValue (Fml.DataField.SubFields f) c2;
             Holding.Summary := subfieldValue (Fml.DataField.SubFields f) c3;
             Holding.Notes := subfieldValue (Fml.DataField.SubFields f) c4;
             Holding.Format := lookupFormat
                                 (lookupLocation (subfieldValue (Fml.DataField.SubFields f) c0))
                                 (subfieldValue (Fml.DataField.SubFields f) c5) |})).
        intros x acc. reflexivity.
      * simpl. now rewrite length_map.
Qed.

Lemma getHoldings_bounds_witness :
  getHoldings exampleRecord "852" ["b"; "c"; "h"; "a"; "z"] = Panics IndexOutOfRange /\
  getHoldings exampleRecord "999" [] = Returns [] /\
  (exists holdings, getHoldings exampleRecord "866" ["b"; "c"; "h"; "a"; "z"] = Returns holdings /\
     length holdings = 1).
Proof.
  split; [|split].
  - destruct (getHoldings_bounds exampleRecord "852" ["b"; "c"; "h"; "a"; "z"]) as (_ & H & _).
    apply H; [discriminate | unfold codesNeeded; simpl; lia].
  - destruct (getHoldings_bounds exampleRecord "999" []) as (H & _).
    apply H. reflexivity.
  - destruct (getHoldings_bounds exampleRecord "866" ["b"; "c"; "h"; "a"; "z"]) as (_ & _ & H).
    apply H. unfold codesNeeded. simpl. lia.
Defined.

Lemma holdingFormats_appendNew (Holdings : list Holding.t) (Format : list string) :
  holdingFormats Holdings Format = appendNew (map Holding.Format Holdings) Format.
Proof.
  revert Format. induction Holdings as [|h hs IH]; intros Format; [reflexivity|].
  unfold holdingFormats, appendNew in *. simpl. apply IH.
Qed.

Lemma NoDup_all_equal (x : string) (l : list string) :
  NoDup l -> l <> [] -> (forall y, y ∈ l -> y = x) -> l = [x].
Proof.
  intros Hnd Hne Hall. destruct l as [|a [|b l]]; [contradiction| |].
  - f_equal. apply Hall. left.
  - exfalso. apply NoDup_cons in Hnd as [Hnotin _]. apply Hnotin.
    rewrite (Hall a), (Hall b); [left | right; left | left].
Qed.

(** X7.  The formats of a document that [marcToRecord] returns are the
    formats of its holdings, each once: no format occurs twice, a format
    is listed exactly when some holding has it, there is none without
    holdings, and when the record has an "866" field the only format is
    "Print volume". *)
Theorem document_formats (TrimSpace : string -> string) (fmlRecord : Fml.fmlRecord)
    (rules : list Rule.t) (languageCodes countryCodes : gmap string string) (r : Rec.t) :
  marcToRecord TrimSpace fmlRecord rules languageCodes countryCodes = Returns (r, None) ->
  NoDup (Rec.Format r) /\
  (forall x, x ∈ Rec.Format r <-> exists h, h ∈ Rec.Holdings r /\ Holding.Format h = x) /\
  (Rec.Holdings r = [] -> Rec.Format r = []) /\
  (Fml.DataField fmlRecord "866" <> [] -> Rec.Format r = ["Print volume"]).
Proof.
  intros H. apply marcToRecord_document in H as (_ & Hh & -> & _).
  rewrite holdingFormats_appendNew.
  destruct (appendNew_first_occurrences (map Holding.Format (Rec.Holdings r)))
    as (Hnd & Hin & _).
  assert (Hmem : forall x, x ∈ appendNew (map Holding.Format (Rec.Holdings r)) [] <->
                           exists h, h ∈ Rec.Holdings r /\ Holding.Format h = x).
  { intros x. rewrite Hin, list_elem_of_fmap. split; intros (h & H1 & H2); eauto. }
  split; [exact Hnd|]. split; [exact Hmem|]. split.
  - now intros ->.
  - intros H866. rewrite recordHoldings_value in Hh. injection Hh as Hh.
    destruct (Fml.DataField fmlRecord "866") as [|f fs] eqn:E; [contradiction|].
    simpl in Hh. apply NoDup_all_equal; [exact Hnd | |].
    + intros Habs. apply appendNew_nil in Habs as [Habs _].
      rewrite <- Hh in Habs. discriminate Habs.
    + intros y Hy. apply Hmem in Hy as (h & Hh' & <-). rewrite <- Hh in Hh'.
      change (h ∈ map holding866 (f :: fs)) in Hh'.
      apply list_elem_of_fmap in Hh' as (g & -> & _). reflexivity.
Qed.

Lemma document_formats_witness :
  exists r, marcToRecord TrimSpaceASCII exampleRecord exampleRules ∅ ∅ = Returns (r, None) /\
            Rec.Format r = ["Print volume"].
Proof.
  eexists. split; [reflexivity|].
  refine (proj2 (proj2 (proj2 (document_formats TrimSpaceASCII exampleRecord exampleRules ∅ ∅
                                 _ eq_refl))) _).
  discriminate.
Defined.

(** The outcome of a [switch]: the default, for a value no case lists, or
    the body of a case that lists the value. *)
Lemma switch_elim {A} (x : string) (cases : list (list string * A)) (d : A) :
  (switch x cases d = d /\ ~ In x (listedCodes cases)) \/
  (exists labels body, In (labels, body) cases /\ In x labels /\ switch x cases d = body).
Proof.
  induction cases as [|[labels body] cases IH]; simpl.
  - left. split; [reflexivity | intros []].
  - destruct (existsb (String.eqb x) labels) eqn:E.
    + right. exists labels, body. apply existsb_exists in E as (l & Hl & El).
      apply String.eqb_eq in El as ->. auto.
    + destruct IH as [[Hd Hx]|(labels' & body' & Hin & Hx & Hs)].
      * left. split; [exact Hd|]. unfold listedCodes in *. simpl. intros Hin.
        apply in_app_or in Hin as [Hin|Hin]; [|contradiction].
        assert (existsb (String.eqb x) labels = true); [|congruence].
        apply existsb_exists. exists x. split; [exact Hin | apply String.eqb_refl].
      * right. exists labels', body'. auto.
Qed.

(** X8.  Electronic holdings have no format.  [lookupFormat] gives the
    empty string exactly at the location "Internet Resource", and
    [lookupLocation] gives that location exactly for the code "NET" and for
    "Internet Resource" itself; so a holding from an "852" field has an
    empty format exactly when its subfield b is one of these two. *)
Theorem internet_resource_format (fmlRecord : Fml.fmlRecord) :
  (forall loc format_code, lookupFormat loc format_code = "" <-> loc = "Internet Resource") /\
  (forall loc, lookupLocation loc = "Internet Resource" <->
               loc = "NET" \/ loc = "Internet Resource") /\
  (forall holdings i h f,
     getHoldings fmlRecord "852" ["b"; "c"; "h"; "a"; "z"; "k"] = Returns holdings ->
     holdings !! i = Some h -> Fml.DataField fmlRecord "852" !! i = Some f ->
     (Holding.Format h = "" <->
      subfieldValue (Fml.DataField.SubFields f) "b" = "NET" \/
      subfieldValue (Fml.DataField.SubFields f) "b" = "Internet Resource")).
Proof.
  assert (Hfmt : forall loc format_code,
            lookupFormat loc format_code = "" <-> loc = "Internet Resource").
  { intros loc x. unfold lookupFormat. destruct (String.eqb loc "Internet Resource") eqn:E.
    - apply String.eqb_eq in E. cbn [negb]. split; auto.
    - apply String.eqb_neq in E. cbn [negb]. split; [|contradiction]. intros H. exfalso.
      destruct (switch_elim x formatCases "Print volume") as [[Hd _]|(ls & b & Hin & _ & Hs)].
      + rewrite Hd in H. discriminate H.
      + rewrite Hs in H. subst b. unfold formatCases in Hin. simpl in Hin.
        repeat (destruct Hin as [Hin|Hin]; [discriminate Hin|]). exact Hin. }
  assert (Hloc : forall loc, lookupLocation loc = "Internet Resource" <->
                             loc = "NET" \/ loc = "Internet Resource").
  { intros loc. split; [|intros [->| ->]; reflexivity].
    unfold lookupLocation. intros H.
    destruct (switch_elim loc locationCases loc) as [[Hd _]|(ls & b & Hin & Hl & Hs)].
    - right. now rewrite Hd in H.
    - rewrite Hs in H. subst b. left. unfold locationCases in Hin. simpl in Hin.
      repeat (destruct Hin as [Hin|Hin];
              [try discriminate Hin;
               injection Hin as <-; simpl in Hl; destruct Hl as [Hl|[]]; now symmetry|]).
      destruct Hin. }
  split; [exact Hfmt|]. split; [exact Hloc|].
  intros holdings i h f Hh Hi Hf. rewrite getHoldings_852 in Hh. injection Hh as <-.
  rewrite list_lookup_fmap, Hf in Hi. injection Hi as <-.
  unfold holding852. cbn [Holding.Format]. rewrite Hfmt. apply Hloc.
Qed.

(** X9.  The labels of locations and collections are not codes: looking
    up the result of [lookupLocation] or of [lookupCollection] again
    changes nothing. *)
Theorem lookup_idempotent (x loc : string) :
  lookupLocation (lookupLocation x) = lookupLocation x /\
  lookupCollection (lookupCollection x loc) loc = lookupCollection x loc.
Proof.
  split.
  - destruct (switch_elim x locationCases x) as [[Hd _]|(ls & b & Hin & _ & Hs)];
      fold (lookupLocation x) in *.
    + now rewrite Hd.
    + rewrite Hs. unfold locationCases in Hin. simpl in Hin.
      repeat (destruct Hin as [Hin|Hin]; [injection Hin as _ <-; reflexivity|]).
      destruct Hin.
  - destruct (switch_elim x (collectionCases loc) x) as [[Hd _]|(ls & b & Hin & _ & Hs)];
      fold (lookupCollection x loc) in *.
    + now rewrite Hd.
    + rewrite Hs. unfold collectionCases in Hin. simpl in Hin.
      destruct (String.eqb loc "HUM"), (String.eqb loc "SCI");
        repeat (destruct Hin as [Hin|Hin]; [injection Hin as _ <-; reflexivity|]);
        destruct Hin.
Qed.

Lemma getLinks_map (fmlRecord : Fml.fmlRecord) :
  getLinks fmlRecord = map linkOf (List.filter qualifies (Fml.DataField fmlRecord "856")).
Proof.
  unfold getLinks. destruct (Fml.DataField fmlRecord "856") as [|f0 fs]; [reflexivity|].
  change (Nat.eqb (length (f0 :: fs)) 0) with false. cbv iota.
  generalize (f0 :: fs). intros l.
  rewrite (foldl_appending _ (fun f => if qualifies f then [linkOf f] else [])).
  - rewrite app_nil_l. induction l as [|f l IH]; simpl; [reflexivity|].
    destruct (qualifies f); simpl; now rewrite IH.
  - intros acc f. unfold qualifies.
    destruct (string_of_byte_eqb (Fml.DataField.Indicator1 f)) as (-> & _ & _).
    destruct (string_of_byte_eqb (Fml.DataField.Indicator2 f)) as (_ & -> & ->).
    destruct (_ && _); [|now rewrite app_nil_r].
    do 2 f_equal. unfold linkOf. cbn [Link.Kind Link.URL Link.Text Link.Restrictions].
    rewrite !subfieldValue_first.
    destruct (firstSubfield (Fml.DataField.SubFields f) "3") as [k|]; simpl;
      [destruct (String.eqb k "")|]; reflexivity.
Qed.

(** X10.  No link has an empty kind, there are at most as many links as
    "856" fields, and a link may have an empty URL: a qualifying field
    without subfield u still gives a link. *)
Theorem links_kind_never_empty (fmlRecord : Fml.fmlRecord) :
  Forall (fun l => Link.Kind l <> "") (getLinks fmlRecord) /\
  length (getLinks fmlRecord) <= length (Fml.DataField fmlRecord "856") /\
  (forall f, f ∈ Fml.DataField fmlRecord "856" -> qualifies f = true ->
     firstSubfield (Fml.DataField.SubFields f) "u" = None ->
     exists l, l ∈ getLinks fmlRecord /\ Link.URL l = "").
Proof.
  rewrite getLinks_map. split; [|split].
  - apply Forall_forall. intros l Hl. apply list_elem_of_fmap in Hl as (f & -> & _).
    unfold linkOf. cbn [Link.Kind].
    destruct (firstSubfield _ "3") as [k|]; [|discriminate].
    destruct (String.eqb k "") eqn:E; [discriminate|]. now apply String.eqb_neq in E.
  - rewrite length_map. apply List.filter_length_le.
  - intros f Hf Hq Hu. exists (linkOf f). split.
    + apply list_elem_of_fmap. exists f. split; [reflexivity|].
      apply list_elem_of_In, filter_In. split; [now apply list_elem_of_In | exact Hq].
    + unfold linkOf. cbn [Link.URL]. now rewrite Hu.
Qed.

Lemma links_kind_never_empty_witness :
  exists l, l ∈ getLinks (Fml.recordOf "9" "a" [datafield "856" "4" "1" [subfield "y" "text"]])
            /\ Link.URL l = "".
Proof.
  destruct (links_kind_never_empty
              (Fml.recordOf "9" "a" [datafield "856" "4" "1" [subfield "y" "text"]]))
    as (_ & _ & H).
  apply (H (datafield "856" "4" "1" [subfield "y" "text"])); [left | reflexivity | reflexivity].
Defined.

Lemma internet_resource_format_witness :
  exists h,
    getHoldings (Fml.recordOf "9" "a"
                   [datafield "852" " " " " [subfield "b" "NET"; subfield "k" "BOOKS"]])
      "852" ["b"; "c"; "h"; "a"; "z"; "k"] = Returns [h] /\
    Holding.Format h = "".
Proof.
  eexists. split; [reflexivity|].
  destruct (internet_resource_format
              (Fml.recordOf "9" "a"
                 [datafield "852" " " " " [subfield "b" "NET"; subfield "k" "BOOKS"]]))
    as (_ & _ & H).
  refine (proj2 (H _ 0%nat _ _ eq_refl eq_refl eq_refl) _).
  left. reflexivity.
Defined.

(* ===================================================================== *)
(** * Further properties: the document                                    *)
(* ===================================================================== *)

(** X11.  Whatever [marcToRecord] returns, a document or the record that
    comes with the error, is identified by the control number of the
    record, names "MIT Aleph" as its source and links to the item page of
    its identifier; a document also has the content type of the leader
    byte and the links of [getLinks]. *)
Theorem document_identity (TrimSpace : string -> string) (fmlRecord : Fml.fmlRecord)
    (rules : list Rule.t) (languageCodes countryCodes : gmap string string)
    (r : Rec.t) (e : option string) :
  marcToRecord TrimSpace fmlRecord rules languageCodes countryCodes = Returns (r, e) ->
  Rec.Identifier r = Fml.ControlNum fmlRecord /\
  Rec.Source r = "MIT Aleph" /\
  Rec.SourceLink r = "https://library.mit.edu/item/" +:+ Rec.Identifier r /\
  (e = None ->
     Rec.ContentType r = contentType (Fml.Leader_Type fmlRecord) /\
     Rec.Links r = getLinks fmlRecord).
Proof.
  unfold marcToRecord. cbv zeta. intros H.
  apply bind_Returns in H as (oclc & Hoclc & H).
  apply bind_Returns in H as (lccn & Hlccn & H).
  apply bind_Returns in H as (title & Htitle & H).
  destruct title as [|title0 titles].
  - injection H as <- <-. repeat split; try reflexivity; discriminate.
  - returned_steps H. injection H as <- <-. repeat split; reflexivity.
Qed.

Lemma document_identity_witness :
  exists r e, marcToRecord TrimSpaceASCII untitledRecord exampleRules ∅ ∅ = Returns (r, e) /\
              Rec.SourceLink r = "https://library.mit.edu/item/002".
Proof.
  eexists. eexists. split; [reflexivity|].
  exact (proj1 (proj2 (proj2 (document_identity TrimSpaceASCII untitledRecord exampleRules
                                ∅ ∅ _ _ eq_refl)))).
Defined.



(** The result of an extraction is collected by the two loops from some
    list of values. *)
Lemma applyRule_collected (fmlRecord : Fml.fmlRecord) (rules : list Rule.t)
    (label : string) (vs : list string) :
  applyRule fmlRecord rules label = Returns vs -> exists l, vs = appendNew l [].
Proof.
  unfold applyRule, extractData. destruct (getRules rules label) as [rule|]; [|discriminate].
  assert (G : forall acc l0, acc = appendNew l0 [] ->
            forRange (Rule.Fields rule)
              (fun r field => f ← filter fmlRecord r; Returns (appendNew f field)) acc
              = Returns vs -> exists l, vs = appendNew l []).
  { induction (Rule.Fields rule) as [|r rs IH]; intros acc l0 Hacc; simpl.
    - intros [= <-]. eauto.
    - destruct (filter fmlRecord r) as [f|]; simpl; [|discriminate].
      apply (IH _ (l0 ++ f)). now rewrite appendNew_app, Hacc. }
  apply (G [] []). reflexivity.
Qed.

Lemma applyRule_NoDup (fmlRecord : Fml.fmlRecord) (rules : list Rule.t)
    (label : string) (vs : list string) :
  applyRule fmlRecord rules label = Returns vs -> NoDup vs.
Proof.
  intros H. apply applyRule_collected in H as [l ->].
  apply appendNew_first_occurrences.
Qed.

(** X13.  No multi-valued attribute that a document takes from a rule
    lists a value twice. *)
Theorem document_no_duplicates (TrimSpace : string -> string) (fmlRecord : Fml.fmlRecord)
    (rules : list Rule.t) (languageCodes countryCodes : gmap string string) (r : Rec.t) :
  marcToRecord TrimSpace fmlRecord rules languageCodes countryCodes = Returns (r, None) ->
  Forall (fun attribute : list string => NoDup attribute)
    [ Rec.OclcNumber r; Rec.AlternateTitles r; Rec.Creator r; Rec.RelatedPlace r;
      Rec.InBibliography r; Rec.Subject r; Rec.Isbn r; Rec.Issn r; Rec.Doi r;
      Rec.CallNumber r; Rec.Imprint r; Rec.PublicationFrequency r; Rec.Notes r;
      Rec.Contents r; Rec.Summary r ].
Proof.
  unfold marcToRecord. cbv zeta. intros H.
  apply bind_Returns in H as (oclc & Hoclc & H).
  apply bind_Returns in H as (lccn & Hlccn & H).
  apply bind_Returns in H as (title & Htitle & H).
  destruct title as [|title0 titles]; [discriminate H|].
  returned_steps H. injection H as <-. simpl.
  repeat (apply Forall_cons; split; [eapply applyRule_NoDup; eassumption|]).
  constructor.
Qed.

Lemma document_no_duplicates_witness :
  exists r, marcToRecord TrimSpaceASCII exampleRecord exampleRules ∅ ∅ = Returns (r, None) /\
            NoDup (Rec.Subject r).
Proof.
  eexists. split; [reflexivity|].
  pose proof (document_no_duplicates TrimSpaceASCII exampleRecord exampleRules ∅ ∅ _ eq_refl)
    as H.
  rewrite Forall_forall in H. apply H. do 5 right. left.
Defined.

(** X14.  The single-valued attributes of a document keep the first value
    of their rule and drop the others: the edition, the physical
    description, the publication date and the numbering are the first
    value, the LCCN is the first value with the white space around it
    trimmed, and the literary form is decided by the first value alone:
    "nonfiction" for "0", "s" and "e", "fiction" for any other. *)
Theorem document_first_values (TrimSpace : string -> string) (fmlRecord : Fml.fmlRecord)
    (rules : list Rule.t) (languageCodes countryCodes : gmap string string) (r : Rec.t) :
  marcToRecord TrimSpace fmlRecord rules languageCodes countryCodes = Returns (r, None) ->
  (forall label attribute,
     (label, attribute) ∈ [ ("edition", Rec.Edition r);
                            ("physical_description", Rec.PhysicalDescription r);
                            ("publication_date", Rec.PublicationDate r);
                            ("numbering", Rec.Numbering r) ] ->
     exists vs, applyRule fmlRecord rules label = Returns vs /\ attribute = hd "" vs) /\
  (exists vs, applyRule fmlRecord rules "lccn" = Returns vs /\
     Rec.Lccn r = match vs with [] => "" | v :: _ => TrimSpace v end) /\
  (exists vs, applyRule fmlRecord rules "literary_form" = Returns vs /\
     Rec.LiteraryForm r =
       match vs with
       | [] => ""
       | v :: _ => if bool_decide (v ∈ ["0"; "s"; "e"]) then "nonfiction" else "fiction"
       end).
Proof.
  unfold marcToRecord. cbv zeta. intros H.
  apply bind_Returns in H as (oclc & Hoclc & H).
  apply bind_Returns in H as (lccn & Hlccn & H).
  apply bind_Returns in H as (title & Htitle & H).
  destruct title as [|title0 titles]; [discriminate H|].
  returned_steps H. injection H as <-. simpl.
  split; [|split].
  - intros label attribute Hin.
    repeat (apply elem_of_cons in Hin as [[= -> ->]|Hin]);
      [eexists; split; [eassumption|]; match goal with |- _ = hd _ ?l => now destruct l end ..|].
    inversion Hin.
  - eauto.
  - eexists. split; [eassumption|].
    match goal with |- literaryForm ?l = _ => destruct l as [|v vs] end; [reflexivity|].
    unfold literaryForm. simpl.
    destruct (String.eqb_spec v "0") as [->|H0]; [reflexivity|].
    destruct (String.eqb_spec v "s") as [->|Hs]; [reflexivity|].
    destruct (String.eqb_spec v "e") as [->|He]; [reflexivity|].
    simpl. rewrite bool_decide_eq_false_2; [reflexivity|].
    rewrite !elem_of_cons. intros [?|[?|[?|Hn]]]; try contradiction. inversion Hn.
Qed.

Lemma document_first_values_witness :
  exists vs, applyRule exampleRecord exampleRules "publication_date" = Returns vs /\
             "itl" = hd "" vs.
Proof.
  destruct (document_first_values TrimSpaceASCII exampleRecord exampleRules ∅ ∅ _ eq_refl)
    as (H & _).
  apply (H "publication_date" "itl"). do 2 right. left.
Defined.

(* ===================================================================== *)
(** * Further properties: the producer                                    *)
(* ===================================================================== *)

Section Producer.

Variable TrimSpace : string -> string.
Variable m : marcparser.

Lemma parseLoop_app (s1 s2 : list Fml.value) (out : list Rec.t) :
  parseLoop TrimSpace m (s1 ++ s2) out =
    match parseLoop TrimSpace m s1 out with
    | (sent, Closed) => parseLoop TrimSpace m s2 sent
    | (sent, Crashed p) => (sent, Crashed p)
    end.
Proof.
  revert out. induction s1 as [|v s1 IH]; intros out; simpl; [reflexivity|].
  destruct (Fml.err v); [apply IH|].
  destruct (marcToRecord _ _ _ _ _) as [[r [e|]]|p]; [apply IH | apply IH | reflexivity].
Qed.


End Producer.

(** X15.  The producer composes over the stream: running it on two streams
    in a row is running it on the first and, if that did not crash, on the
    second with what was sent so far; a crash of the first part is the
    end.  What was sent is never taken back: the result extends what had
    been sent before. *)
Theorem parse_composes (TrimSpace : string -> string) (m : marcparser)
    (s1 s2 : list Fml.value) (out : list Rec.t) :
  parseLoop TrimSpace m (s1 ++ s2) out =
    match parseLoop TrimSpace m s1 out with
    | (sent, Closed) => parseLoop TrimSpace m s2 sent
    | (sent, Crashed p) => (sent, Crashed p)
    end /\
  exists sent, fst (parseLoop TrimSpace m s1 out) = out ++ sent /\ length sent <= length s1.
Proof.
  split; [apply parseLoop_app|].
  revert out. induction s1 as [|v s1 IH]; intros out; simpl.
  - exists []. now rewrite app_nil_r.
  - destruct (Fml.err v).
    { destruct (IH out) as (sent & -> & Hlen). exists sent. split; [reflexivity | lia]. }
    destruct (marcToRecord _ _ _ _ _) as [[r [e|]]|p].
    + destruct (IH out) as (sent & -> & Hlen). exists sent. split; [reflexivity | lia].
    + destruct (IH (out ++ [r])) as (sent & -> & Hlen). exists (r :: sent).
      split; [now rewrite <- app_assoc | simpl; lia].
    + exists []. simpl. split; [now rewrite app_nil_r | lia].
Qed.





(* ===================================================================== *)
(** * Further properties: loading a code table                            *)
(* ===================================================================== *)

(** X18.  In the table that [RetrieveCodelist] builds, a code has the name
    of the last element of the document that carries it: elements with
    another name are ignored, and a later element with the same code
    replaces an earlier one.  A code no element carries is not in the
    table. *)
Theorem RetrieveCodelist_last_wins (codeType : string) (tokens : list token) (code : string) :
  RetrieveCodelist codeType tokens !! code =
    CodeMap.Name <$>
      last (List.filter (fun c => String.eqb (CodeMap.Code c) code) (entriesOf codeType tokens)).
Proof.
  unfold RetrieveCodelist, entriesOf.
  induction tokens as [|t tokens IH] using rev_ind; [reflexivity|].
  rewrite foldl_app, omap_app, List.filter_app. simpl.
  destruct t as [Local c|]; [destruct (String.eqb Local codeType)|];
    simpl; rewrite ?app_nil_r; try exact IH.
  destruct (String.eqb_spec (CodeMap.Code c) code) as [<-|Hne].
  - rewrite lookup_insert_eq, last_snoc. reflexivity.
  - rewrite lookup_insert_ne by exact Hne. rewrite app_nil_r. exact IH.
Qed.

(* ===================================================================== *)
(** * Further properties: the older parser                                *)
(* ===================================================================== *)

Lemma Contains_In (a : list ascii) (x : ascii) : Parsers.Contains a x = true <-> In x a.
Proof.
  induction a as [|n a IH]; simpl; [split; [discriminate | intros []]|].
  destruct (Ascii.eqb_spec x n) as [->|Hne].
  - split; auto.
  - rewrite IH. split; [auto | intros [H|H]; [congruence | exact H]].
Qed.

Lemma stringify_data (Tag : string) (SubFields : list Marc21.SubField.t)
    (subfields : list ascii) :
  Parsers.stringifySelectSubfields (Marc21.DataField Tag SubFields) subfields =
    Join (map Marc21.SubField.Value
            (List.filter (fun s => Parsers.Contains subfields (Marc21.SubField.Code s))
                         SubFields)) " ".
Proof.
  unfold Parsers.stringifySelectSubfields. f_equal.
  rewrite (foldl_appending _
             (fun s => if Parsers.Contains subfields (Marc21.SubField.Code s)
                       then [Marc21.SubField.Value s] else [])).
  - simpl. induction SubFields as [|s l IH]; simpl; [reflexivity|].
    destruct (Parsers.Contains subfields (Marc21.SubField.Code s)); simpl; now rewrite IH.
  - intros acc s. destruct (Parsers.Contains _ _); [reflexivity | now rewrite app_nil_r].
Qed.

(** X19.  What goes into the string of a field depends on the rule's
    subfield codes as a set only.  For a data field it is the values of
    the subfields whose code the rule lists, joined by spaces in the
    order of the record, not of the rule; a control field gives its data
    whatever the rule lists. *)
Theorem stringify_by_membership (field : Marc21.Field) (subfields subfields' : list ascii) :
  (forall c, c ∈ subfields <-> c ∈ subfields') ->
  Parsers.stringifySelectSubfields field subfields =
    Parsers.stringifySelectSubfields field subfields' /\
  Parsers.stringifySelectSubfields field subfields =
    match field with
    | Marc21.DataField _ SubFields =>
        Join (map Marc21.SubField.Value
                (List.filter (fun s => bool_decide (Marc21.SubField.Code s ∈ subfields))
                             SubFields)) " "
    | Marc21.ControlField _ Data => Data
    end.
Proof.
  intros Hsame.
  assert (Hc : forall subs c, Parsers.Contains subs c = bool_decide (c ∈ subs)).
  { intros subs c. apply eq_true_iff_eq.
    rewrite Contains_In, bool_decide_eq_true, list_elem_of_In. reflexivity. }
  destruct field as [Tag SubFields|Tag Data]; [|split; reflexivity].
  rewrite !stringify_data. split.
  - do 2 f_equal. apply List.filter_ext. intros s. rewrite !Hc.
    apply bool_decide_ext, Hsame.
  - do 2 f_equal. apply List.filter_ext. intros s. apply Hc.
Qed.

Lemma stringify_by_membership_witness :
  Parsers.stringifySelectSubfields
    (Marc21.DataField "245" [ {| Marc21.SubField.Code := "a"; Marc21.SubField.Value := "T" |};
                              {| Marc21.SubField.Code := "c"; Marc21.SubField.Value := "x" |};
                              {| Marc21.SubField.Code := "b"; Marc21.SubField.Value := "s" |} ])
    (list_ascii_of_string "ba") = "T s".
Proof.
  refine (eq_trans (proj1 (stringify_by_membership _ (list_ascii_of_string "ba")
                             (list_ascii_of_string "ab") _)) _).
  - intros c. simpl. rewrite !elem_of_cons. tauto.
  - reflexivity.
Defined.

Lemma getRule_Tag (rules : list Parsers.Rules.t) (tag : string) (rule : Parsers.Rules.t) :
  Parsers.getRule rules tag = Some rule -> Parsers.Rules.Tag rule = tag.
Proof.
  induction rules as [|v rest IH]; simpl; [discriminate|].
  destruct (String.eqb_spec (Parsers.Rules.Tag v) tag) as [E|_]; [|exact IH].
  now intros [= <-].
Qed.

Lemma collectSubfields_map (marcfield : string) (subfields : list ascii)
    (marcrecord : Marc21.marcRecord) :
  Parsers.collectSubfields marcfield subfields marcrecord =
    map (fun f => Parsers.stringifySelectSubfields f subfields)
        (Marc21.GetFields marcrecord marcfield).
Proof.
  unfold Parsers.collectSubfields.
  rewrite (foldl_appending _ (fun f => [Parsers.stringifySelectSubfields f subfields]));
    [|reflexivity].
  simpl. induction (Marc21.GetFields marcrecord marcfield) as [|f l IH]; simpl;
    [reflexivity | now rewrite IH].
Qed.

Section OlderParser.

Variables (marcRecord : Marc21.marcRecord) (rules : list Parsers.Rules.t).

Lemma toRecord_collected (field : list string) (tag : string) (res : list string) :
  Parsers.toRecord field (Parsers.getRule rules tag) marcRecord = Returns res ->
  Parsers.getRule rules tag <> None /\ res = field ++ collected marcRecord rules tag.
Proof.
  unfold Parsers.toRecord, collected.
  destruct (Parsers.getRule rules tag) as [rule|] eqn:E; [|discriminate].
  rewrite collectSubfields_map, (getRule_Tag _ _ _ E). intros [= <-]. split; [discriminate|].
  reflexivity.
Qed.

Lemma toRecord_returns (field : list string) (tag : string) :
  Parsers.getRule rules tag <> None ->
  Parsers.toRecord field (Parsers.getRule rules tag) marcRecord =
    Returns (field ++ collected marcRecord rules tag).
Proof.
  unfold Parsers.toRecord, collected.
  destruct (Parsers.getRule rules tag) as [rule|] eqn:E; [|contradiction].
  now rewrite collectSubfields_map, (getRule_Tag _ _ _ E).
Qed.

Lemma first_collected (tag : string) (v : string) :
  match Parsers.getRule rules tag with
  | None => Panics NilDereference
  | Some rule =>
      index (Parsers.collectSubfields (Parsers.Rules.Tag rule)
               (list_ascii_of_string (Parsers.Rules.Subfields rule)) marcRecord) 0
  end = Returns v <->
  Parsers.getRule rules tag <> None /\ exists vs, collected marcRecord rules tag = v :: vs.
Proof.
  unfold collected. destruct (Parsers.getRule rules tag) as [rule|] eqn:E.
  - rewrite collectSubfields_map, (getRule_Tag _ _ _ E).
    destruct (map _ _) as [|v0 vs]; simpl.
    + split; [discriminate | intros (_ & vs & H); discriminate H].
    + unfold index. simpl. split.
      * intros [= ->]. split; [discriminate | eauto].
      * intros (_ & vs' & [= -> _]). reflexivity.
  - split; [discriminate | intros [H _]; contradiction].
Qed.

End OlderParser.

Lemma year_step (marcRecord : Marc21.marcRecord) (rules : list Parsers.Rules.t) (y : string) :
  match Parsers.getRule rules "008" with
  | None => Panics NilDereference
  | Some rule =>
      v ← index (Parsers.collectSubfields (Parsers.Rules.Tag rule)
                   (list_ascii_of_string (Parsers.Rules.Subfields rule)) marcRecord) 0;
      slice v 7 11
  end = Returns y <->
  Parsers.getRule rules "008" <> None /\
  exists v vs, collected marcRecord rules "008" = v :: vs /\
               11 <= String.length v /\ y = substring 7 4 v.
Proof.
  unfold collected. destruct (Parsers.getRule rules "008") as [rule|] eqn:E.
  - rewrite collectSubfields_map, (getRule_Tag _ _ _ E).
    destruct (map _ _) as [|v0 vs]; simpl.
    + split; [discriminate | intros (_ & v & vs & H & _); discriminate H].
    + unfold slice, len. simpl.
      destruct (Z.leb_spec 11 (Z.of_nat (String.length v0))) as [Hle|Hgt].
      * split.
        -- intros [= <-]. split; [discriminate|]. exists v0, vs.
           split; [reflexivity|]. split; [lia | reflexivity].
        -- intros (_ & v & vs' & [= <- _] & _ & ->). reflexivity.
      * split; [discriminate|]. intros (_ & v & vs' & [= <- _] & Hlen & _). lia.
  - split; [discriminate | intros [H _]; contradiction].
Qed.

(** X20.  The older mapper has no error for a missing title: without a
    rule for the tag "245" it panics on the nil rule, and with the rule,
    on a record without a "245" field, it panics with "index out of
    range". *)
Theorem old_mapper_no_title (marcRecord : Marc21.marcRecord) (rules : list Parsers.Rules.t) :
  (Parsers.getRule rules "245" = None ->
     Parsers.marcToRecord marcRecord rules = Panics NilDereference) /\
  (Parsers.getRule rules "245" <> None -> Marc21.GetFields marcRecord "245" = [] ->
     Parsers.marcToRecord marcRecord rules = Panics IndexOutOfRange).
Proof.
  unfold Parsers.marcToRecord. split.
  - now intros ->.
  - intros Hrule Hnone. destruct (Parsers.getRule rules "245") as [rule|] eqn:E;
      [|contradiction].
    now rewrite collectSubfields_map, (getRule_Tag _ _ _ E), Hnone.
Qed.

Lemma old_mapper_no_title_witness :
  Parsers.marcToRecord
    {| Marc21.Identifier := "1"; Marc21.Leader_Type := "a"; Marc21.GetFields := fun _ => [] |}
    [ {| Parsers.Rules.Field := "title"; Parsers.Rules.Tag := "245";
         Parsers.Rules.Subfields := "ab" |} ] = Panics IndexOutOfRange.
Proof.
  apply (proj2 (old_mapper_no_title _ _)); [discriminate | reflexivity].
Defined.

(** X21.  The older mapper returns a record exactly when the rules have a
    rule for each of its ten tags, the record has a "245" field, and the
    string of its first "008" field is at least 11 bytes long; in every
    other case it panics. *)
Theorem old_mapper_returns_iff (marcRecord : Marc21.marcRecord)
    (rules : list Parsers.Rules.t) :
  (exists r, Parsers.marcToRecord marcRecord rules = Returns r) <->
  Forall (fun tag => Parsers.getRule rules tag <> None) parserTags /\
  collected marcRecord rules "245" <> [] /\
  exists v vs, collected marcRecord rules "008" = v :: vs /\ 11 <= String.length v.
Proof.
  unfold Parsers.marcToRecord. cbv zeta. split.
  - intros [r H].
    apply bind_Returns in H as (title & Ht & H). apply first_collected in Ht as (R245 & vs & Ht).
    apply bind_Returns in H as (a & Ha & H). apply toRecord_collected in Ha as (R100 & _).
    apply bind_Returns in H as (c & Hc & H). apply toRecord_collected in Hc as (R700 & _).
    apply bind_Returns in H as (u & Hu & H). apply toRecord_collected in Hu as (R856 & _).
    apply bind_Returns in H as (s0 & Hs0 & H). apply toRecord_collected in Hs0 as (R600 & _).
    apply bind_Returns in H as (s1 & Hs1 & H). apply toRecord_collected in Hs1 as (R610 & _).
    apply bind_Returns in H as (s2 & Hs2 & H). apply toRecord_collected in Hs2 as (R650 & _).
    apply bind_Returns in H as (s3 & Hs3 & H). apply toRecord_collected in Hs3 as (R651 & _).
    apply bind_Returns in H as (i & Hi & H). apply toRecord_collected in Hi as (R020 & _).
    apply bind_Returns in H as (y & Hy & H).
    apply year_step in Hy as (R008 & v & vs' & Hv & Hlen & _).
    split; [repeat constructor; assumption|].
    split; [rewrite Ht; discriminate | eauto].
  - intros (Hrules & H245 & v & vs & H008 & Hlen).
    unfold parserTags in Hrules.
    repeat match goal with
           | H : Forall _ (_ :: _) |- _ =>
               let R := fresh "R" in apply Forall_cons in H as [R H]
           end.
    destruct (collected marcRecord rules "245") as [|t ts] eqn:E245; [contradiction|].
    rewrite (proj2 (first_collected marcRecord rules "245" t)) by eauto.
    cbn [mbind result_bind].
    rewrite !toRecord_returns by assumption. cbn [mbind result_bind].
    rewrite !toRecord_returns by assumption. cbn [mbind result_bind].
    rewrite !toRecord_returns by assumption. cbn [mbind result_bind].
    rewrite !toRecord_returns by assumption. cbn [mbind result_bind].
    rewrite (proj2 (year_step marcRecord rules (substring 7 4 v))) by eauto 10.
    cbn [mbind result_bind]. eauto.
Qed.

(** X22.  The record the older mapper returns.  Its title is the string of
    the first "245" field and its year the bytes 7 to 10 of the string of
    the first "008" field, always four bytes.  Authors, contributors, URLs
    and ISBNs have one string per field of the tags "100", "700", "856"
    and "020"; the URLs come from every "856" field, whatever its
    indicators.  The subjects are the strings of the "600", "610", "650"
    and "651" fields in this order of the tags, repeated values kept. *)
Theorem old_mapper_record (marcRecord : Marc21.marcRecord) (rules : list Parsers.Rules.t)
    (r : Parsers.Rec.t) :
  Parsers.marcToRecord marcRecord rules = Returns r ->
  Parsers.Rec.identifier r = Marc21.Identifier marcRecord /\
  (exists titles, collected marcRecord rules "245" = Parsers.Rec.title r :: titles) /\
  Parsers.Rec.author r = collected marcRecord rules "100" /\
  Parsers.Rec.contributor r = collected marcRecord rules "700" /\
  Parsers.Rec.url r = collected marcRecord rules "856" /\
  length (Parsers.Rec.url r) = length (Marc21.GetFields marcRecord "856") /\
  Parsers.Rec.subject r =
    collected marcRecord rules "600" ++ collected marcRecord rules "610" ++
    collected marcRecord rules "650" ++ collected marcRecord rules "651" /\
  Parsers.Rec.isbn r = collected marcRecord rules "020" /\
  (exists v vs, collected marcRecord rules "008" = v :: vs /\
                Parsers.Rec.year r = substring 7 4 v) /\
  String.length (Parsers.Rec.year r) = 4 /\
  Parsers.Rec.content_type r = Parsers.contentType (Marc21.Leader_Type marcRecord).
Proof.
  unfold Parsers.marcToRecord. cbv zeta. intros H.
  apply bind_Returns in H as (title & Ht & H). apply first_collected in Ht as (R245 & vs & Ht).
  apply bind_Returns in H as (a & Ha & H). apply toRecord_collected in Ha as (R100 & ->).
  apply bind_Returns in H as (c & Hc & H). apply toRecord_collected in Hc as (R700 & ->).
  apply bind_Returns in H as (u & Hu & H). apply toRecord_collected in Hu as (R856 & ->).
  apply bind_Returns in H as (s0 & Hs0 & H). apply toRecord_collected in Hs0 as (R600 & ->).
  apply bind_Returns in H as (s1 & Hs1 & H). apply toRecord_collected in Hs1 as (R610 & ->).
  apply bind_Returns in H as (s2 & Hs2 & H). apply toRecord_collected in Hs2 as (R650 & ->).
  apply bind_Returns in H as (s3 & Hs3 & H). apply toRecord_collected in Hs3 as (R651 & ->).
  apply bind_Returns in H as (i & Hi & H). apply toRecord_collected in Hi as (R020 & ->).
  apply bind_Returns in H as (y & Hy & H).
  apply year_step in Hy as (R008 & v & vs' & Hv & Hlen & ->).
  injection H as <-. cbn.
  repeat split; eauto.
  - unfold collected. destruct (Parsers.getRule rules "856"); [|contradiction].
    apply length_map.
  - now rewrite <- !app_assoc.
  - apply length_substring. lia.
Qed.

Lemma old_mapper_returns_iff_witness :
  exists r, Parsers.marcToRecord olderRecord olderRules = Returns r.
Proof.
  apply (proj2 (old_mapper_returns_iff olderRecord olderRules)).
  split; [repeat constructor; discriminate|].
  split; [discriminate|].
  exists "850101s1985    xx", []. split; [reflexivity | simpl; lia].
Defined.

Lemma old_mapper_record_witness :
  exists r, Parsers.marcToRecord olderRecord olderRules = Returns r /\
            String.length (Parsers.Rec.year r) = 4 /\
            Parsers.Rec.subject r = ["x"; "x"].
Proof.
  eexists. split; [reflexivity|].
  destruct (old_mapper_record olderRecord olderRules _ eq_refl)
    as (_ & _ & _ & _ & _ & _ & Hs & _ & _ & Hy & _).
  split; [exact Hy | exact Hs].
Defined.

(** X23.  [Process] dumps all or nothing.  It dumps the records only when
    every read gave a record and every record was mapped, and then the
    count it logs is the number of records read and dumped.  A read error
    is fatal after the records before it were read and mapped, and a
    record the mapper panics on ends the run; in both cases nothing is
    dumped.  With rules, it never ends as if the rules were missing. *)
Theorem Process_all_or_nothing (marcfile : list Marc21.read) (rules : list Parsers.Rules.t) :
  match Parsers.Process marcfile (Some rules) with
  | Parsers.Dumped records count =>
      exists rs, marcfile = map Marc21.ReadRecord rs /\
        mapM (fun r => Parsers.marcToRecord r rules) rs = Returns records /\
        count = length rs /\ length records = count
  | Parsers.Fatal count =>
      exists rs err rest mapped,
        marcfile = map Marc21.ReadRecord rs ++ Marc21.ReadError err :: rest /\
        mapM (fun r => Parsers.marcToRecord r rules) rs = Returns mapped /\
        count = length rs
  | Parsers.Crashed p =>
      exists rs r rest mapped,
        marcfile = map Marc21.ReadRecord rs ++ Marc21.ReadRecord r :: rest /\
        mapM (fun r => Parsers.marcToRecord r rules) rs = Returns mapped /\
        Parsers.marcToRecord r rules = Panics p
  | Parsers.NoRules => False
  end.
Proof.
  unfold Parsers.Process.
  assert (G : forall records count, length records = count ->
            match Parsers.processLoop marcfile rules records count with
            | Parsers.Dumped recs n =>
                exists rs new, marcfile = map Marc21.ReadRecord rs /\
                  mapM (fun r => Parsers.marcToRecord r rules) rs = Returns new /\
                  recs = records ++ new /\ n = count + length rs /\ length new = length rs
            | Parsers.Fatal n =>
                exists rs err rest mapped,
                  marcfile = map Marc21.ReadRecord rs ++ Marc21.ReadError err :: rest /\
                  mapM (fun r => Parsers.marcToRecord r rules) rs = Returns mapped /\
                  n = count + length rs
            | Parsers.Crashed p =>
                exists rs r rest mapped,
                  marcfile = map Marc21.ReadRecord rs ++ Marc21.ReadRecord r :: rest /\
                  mapM (fun r => Parsers.marcToRecord r rules) rs = Returns mapped /\
                  Parsers.marcToRecord r rules = Panics p
            | Parsers.NoRules => False
            end).
  { induction marcfile as [|[record|err] rest IH]; intros records count Hlen; simpl.
    - exists [], []. rewrite app_nil_r. repeat split; simpl; lia.
    - destruct (Parsers.marcToRecord record rules) as [r|p] eqn:E.
      + specialize (IH (records ++ [r]) (S count)).
        rewrite length_app in IH. simpl in IH. specialize (IH ltac:(lia)).
        destruct (Parsers.processLoop rest rules (records ++ [r]) (S count)) as [recs n| |n|p].
        * destruct IH as (rs & new & -> & Hm & -> & -> & Hl).
          exists (record :: rs), (r :: new). simpl. rewrite E, Hm. simpl.
          repeat split; [now rewrite <- app_assoc | lia | simpl; lia].
        * exact IH.
        * destruct IH as (rs & err & rest' & mapped & -> & Hm & ->).
          exists (record :: rs), err, rest', (r :: mapped). simpl. rewrite E, Hm.
          repeat split. simpl. lia.
        * destruct IH as (rs & r' & rest' & mapped & -> & Hm & Hp).
          exists (record :: rs), r', rest', (r :: mapped). simpl. rewrite E, Hm.
          repeat split. exact Hp.
      + exists [], record, rest, []. repeat split. exact E.
    - exists [], err, rest, []. repeat split. simpl. lia. }
  specialize (G [] 0 eq_refl).
  destruct (Parsers.processLoop marcfile rules [] 0) as [recs n| |n|p]; [|exact G..].
  destruct G as (rs & new & -> & Hm & -> & -> & Hl).
  exists rs. simpl. repeat split; [exact Hm | lia].
Qed.
